(** * ColorME2: the generative-AI flows and their retry / validation envelope

    A shallow embedding of the five server-side flows of the repository
    (clothing-item analysis, outfit suggestion, outfit inspiration, outfit
    visualization, seasonal colour analysis) together with the parts of the
    JavaScript runtime and of the zod schema library that the flows rely on.

    Conventions of the embedding.
    - A JavaScript string is a [string]; [toLowerCase] acts on the letters
      A-Z and leaves every other code unit alone.
    - A value produced by the model is an untyped JSON value ([value]); the
      flows read its properties with the JavaScript rules for truthiness and
      for reading a property of a non-object.
    - The hosted model is an oracle: the outcome of its k-th invocation is
      given by a function of k.  Every invocation and every [setTimeout]
      suspension is appended to a log, which is what the theorems about the
      number of calls and about the delays speak of. *)

From Stdlib Require Import String Ascii List ZArith Lia Bool Arith.
From Stdlib Require Import DecimalString.
Import ListNotations.
Local Open Scope string_scope.
Local Open Scope list_scope.

(** ** JavaScript strings *)

Module JsString.

(** [c.toLowerCase()] on one code unit. *)
Definition lower_ascii (c : ascii) : ascii :=
  let n := nat_of_ascii c in
  if (65 <=? n)%nat && (n <=? 90)%nat then ascii_of_nat (n + 32) else c.

(** [String.prototype.toLowerCase]. *)
Fixpoint toLowerCase (s : string) : string :=
  match s with
  | EmptyString => EmptyString
  | String c r => String (lower_ascii c) (toLowerCase r)
  end.

(** [s.startsWith(t)]. *)
Definition startsWith (s t : string) : bool := String.prefix t s.

(** [s.includes(t)]: [t] occurs in [s] at some position. *)
Fixpoint includes (s t : string) : bool :=
  startsWith s t ||
  match s with
  | EmptyString => false
  | String _ r => includes r t
  end.

(** [parts.join(sep)]. *)
Fixpoint join (sep : string) (parts : list string) : string :=
  match parts with
  | [] => ""
  | [p] => p
  | p :: rest => p ++ sep ++ join sep rest
  end.

(** A string is falsy exactly when it is empty. *)
Definition nonempty (s : string) : bool :=
  match s with EmptyString => false | String _ _ => true end.

(** [a || b] on two strings. *)
Definition or_else (a b : string) : string := if nonempty a then a else b.

(** Decimal rendering of an array index or of a small number. *)
Definition of_nat (n : nat) : string := NilEmpty.string_of_uint (Nat.to_uint n).

End JsString.
Import JsString.

(** ** JSON values and the JavaScript operations the flows apply to them *)

Set Warnings "-register-all".

Inductive value : Type :=
| VUndefined
| VNull
| VBool (b : bool)
| VNum (n : Z)
| VStr (s : string)
| VArr (items : list value)
| VObj (props : list (string * value)).

(** Own-property lookup in the property list of an object. *)
Fixpoint lookup (k : string) (props : list (string * value)) : option value :=
  match props with
  | [] => None
  | (k', v) :: rest => if String.eqb k k' then Some v else lookup k rest
  end.

(** [obj.k = v]: overwrite the property in place, or add it at the end. *)
Fixpoint assign (k : string) (v : value) (props : list (string * value))
  : list (string * value) :=
  match props with
  | [] => [(k, v)]
  | (k', v') :: rest =>
      if String.eqb k k' then (k', v) :: rest else (k', v') :: assign k v rest
  end.

(** [!!v]. *)
Definition truthy (v : value) : bool :=
  match v with
  | VUndefined | VNull => false
  | VBool b => b
  | VNum n => negb (Z.eqb n 0)
  | VStr s => nonempty s
  | VArr _ | VObj _ => true
  end.

(** [v == null]. *)
Definition nullish (v : value) : bool :=
  match v with VUndefined | VNull => true | _ => false end.

(** [v.k] for a receiver that is not nullish and a name [k] among the field
    names the flows use: an object yields its own property, every other
    receiver yields [undefined]. *)
Definition get (v : value) (k : string) : value :=
  match v with
  | VObj props => match lookup k props with Some x => x | None => VUndefined end
  | _ => VUndefined
  end.

(** [v.k = x] on an object; the flows assign only to objects. *)
Definition set (v : value) (k : string) (x : value) : value :=
  match v with
  | VObj props => VObj (assign k x props)
  | _ => v
  end.

(** [String(v)], as used by template literals. *)
Fixpoint to_string (v : value) : string :=
  match v with
  | VUndefined => "undefined"
  | VNull => "null"
  | VBool true => "true"
  | VBool false => "false"
  | VNum n =>
      match n with
      | Z0 => "0"
      | Zpos p => of_nat (Pos.to_nat p)
      | Zneg p => "-" ++ of_nat (Pos.to_nat p)
      end
  | VStr s => s
  | VArr items =>
      join "," (map (fun x => if nullish x then "" else to_string x) items)
  | VObj _ => "[object Object]"
  end.

(** ** Exceptions and results *)

(** One entry of [ZodError.errors]. *)
Inductive pathItem : Type :=
| Key (k : string)
| Index (i : nat).

Record ZodIssue : Type := mkIssue {
  path : list pathItem;
  message : string
}.

(** The values the flows throw and catch. *)
Inductive exn : Type :=
| ZodError (errors : list ZodIssue)
| Error (msg : string)
| TypeError (msg : string).

Inductive result (A : Type) : Type :=
| Ok (a : A)
| Err (e : exn).
Arguments Ok {A} a.
Arguments Err {A} e.

Definition bindR {A B} (r : result A) (k : A -> result B) : result B :=
  match r with
  | Ok a => k a
  | Err e => Err e
  end.

Notation "x <- r ;; k" := (bindR r (fun x => k))
  (at level 61, r at next level, right associativity).

(** ** The zod schemas of the two validated outputs *)

Module Zod.

(** The schema constructors the validated outputs are built from:
    [z.string()], [z.string().regex(re, msg)], [z.array(el)] and
    [z.object(shape)]. *)
Inductive schema : Type :=
| string_ (refinement : option ((string -> bool) * string))
| array_ (element : schema)
| object_ (shape : list (string * schema)).

(** zod's name for the type of a received value. *)
Definition parsedType (v : value) : string :=
  match v with
  | VUndefined => "undefined"
  | VNull => "null"
  | VBool _ => "boolean"
  | VNum _ => "number"
  | VStr _ => "string"
  | VArr _ => "array"
  | VObj _ => "object"
  end.

(** The [invalid_type] issue: "Required" for a missing value. *)
Definition invalid_type (p : list pathItem) (expected : string) (v : value)
  : ZodIssue :=
  mkIssue p
    match v with
    | VUndefined => "Required"
    | _ => "Expected " ++ expected ++ ", received " ++ parsedType v
    end.

(** [schema.safeParse(v).error.errors] with [p] the path of [v]: every
    issue of every field and of every element, in the order zod visits
    them; the empty list when [v] conforms. *)
Fixpoint issues (s : schema) (p : list pathItem) (v : value) {struct s}
  : list ZodIssue :=
  match s with
  | string_ refinement =>
      match v with
      | VStr str =>
          match refinement with
          | Some (re, msg) => if re str then [] else [mkIssue p msg]
          | None => []
          end
      | _ => [invalid_type p "string" v]
      end
  | array_ element =>
      match v with
      | VArr items =>
          (fix each (xs : list value) (i : nat) : list ZodIssue :=
             match xs with
             | [] => []
             | x :: rest => issues element (p ++ [Index i]) x ++ each rest (S i)
             end) items 0%nat
      | _ => [invalid_type p "array" v]
      end
  | object_ shape =>
      match v with
      | VObj _ =>
          (fix fields (sh : list (string * schema)) : list ZodIssue :=
             match sh with
             | [] => []
             | (k, sk) :: rest => issues sk (p ++ [Key k]) (get v k) ++ fields rest
             end) shape
      | _ => [invalid_type p "object" v]
      end
  end.

(** [schema.parse(v)]: throws a [ZodError] carrying all the issues, or
    completes (the flows discard the parsed copy it returns). *)
Definition parse (s : schema) (v : value) : result unit :=
  match issues s [] v with
  | [] => Ok tt
  | errs => Err (ZodError errs)
  end.

(** [e.path.join('.')]. *)
Definition pathString (p : list pathItem) : string :=
  join "." (map (fun it => match it with Key k => k | Index i => of_nat i end) p).

End Zod.

(** ** The hosted model and the log of a flow invocation *)

(** A request sent to the model: the parts of an [ai.generate] prompt. *)
Inductive part : Type :=
| text (s : string)
| media (url : string).

(** What a flow invocation does to the outside world, in order. *)
Inductive event : Type :=
| Prompted (input : value)        (* a defined prompt is called with [input] *)
| Generated (prompt : list part)  (* [ai.generate] is called with these parts *)
| Slept (ms : Z).                 (* [setTimeout(resolve, ms)] was awaited *)

(** The outcome of one model invocation: a response (whose [output], or
    [media], may be anything, [null] included) or a rejection with an
    [Error] carrying a message. *)
Inductive outcome : Type :=
| Returns (v : value)
| Fails (msg : string).

Record world : Type := mkWorld {
  calls : nat;          (* model invocations made so far *)
  log : list event
}.

Definition start : world := mkWorld 0 [].

(** Computations of a flow body: a result, or a thrown exception, and the
    world after it. *)
Definition M (A : Type) : Type := world -> result A * world.

Definition ret {A} (a : A) : M A := fun w => (Ok a, w).
Definition throw {A} (e : exn) : M A := fun w => (Err e, w).
Definition lift {A} (r : result A) : M A := fun w => (r, w).

Definition bind {A B} (m : M A) (k : A -> M B) : M B :=
  fun w =>
    match m w with
    | (Ok a, w') => k a w'
    | (Err e, w') => (Err e, w')
    end.

(** [try { body } catch (error) { handler }]. *)
Definition try_catch {A} (body : M A) (handler : exn -> M A) : M A :=
  fun w =>
    match body w with
    | (Ok a, w') => (Ok a, w')
    | (Err e, w') => handler e w'
    end.

Notation "x <~ m ;; k" := (bind m (fun x => k))
  (at level 61, m at next level, right associativity).
Notation "m ;;; k" := (bind m (fun _ => k))
  (at level 61, right associativity).

(** [await new Promise(resolve => setTimeout(resolve, ms))]. *)
Definition sleep (ms : Z) : M unit :=
  fun w => (Ok tt, mkWorld (calls w) (log w ++ [Slept ms])).

(** One awaited model invocation, recorded as [ev]; its outcome is the
    oracle's answer for the number of invocations made before it. *)
Definition invoke (model : nat -> outcome) (ev : event) : M value :=
  fun w =>
    (match model (calls w) with
     | Returns v => Ok v
     | Fails msg => Err (Error msg)
     end,
     mkWorld (S (calls w)) (log w ++ [ev])).

(** The model invocations and the suspensions of a log. *)
Definition invocations (l : list event) : nat :=
  length (filter (fun e => match e with Slept _ => false | _ => true end) l).

Fixpoint delays (l : list event) : list Z :=
  match l with
  | [] => []
  | Slept ms :: r => ms :: delays r
  | _ :: r => delays r
  end.

(** ** The retry loop shared by the two analysis flows

    [analyzeClothingItemFlow] and [performColorAnalysisFlow] carry the same
    loop; they differ in the statements between the model call and the
    [return] ([check]) and in the texts of their errors. *)

Definition maxRetries : nat := 3.

(** [error.message] of a caught exception that is not a [ZodError]. *)
Definition messageOf (e : exn) : string :=
  match e with
  | ZodError _ => ""
  | Error m => m
  | TypeError m => m
  end.

(** The classification of the lower-cased message. *)
Definition isRetryableError (errorMessage : string) : bool :=
  includes errorMessage "503" ||
  includes errorMessage "service unavailable" ||
  includes errorMessage "model is overloaded" ||
  includes errorMessage "model_is_overloaded" ||
  includes errorMessage "resource has been exhausted" ||
  includes errorMessage "rate limit" ||
  includes errorMessage "try again".

(** How one iteration of the [for] loop ends when it does not throw. *)
Inductive iteration : Type :=
| Return (output : value)   (* [return output] *)
| Continue (delay : Z).     (* fall out of the [catch] into [attempt++] *)

Section RetryLoop.

Variable model : nat -> outcome.
Variable input : value.
(** The statements of the [try] block after the model call. *)
Variable check : value -> result value.
(** The message of the error thrown for a [ZodError]. *)
Variable validationMessage : list ZodIssue -> string.
(** The message of the error thrown when the last attempt fails with a
    retryable error, from [error.message || 'Onbekende API fout']. *)
Variable exhaustedMessage : string -> string.
(** The message of the error thrown after the loop. *)
Variable unexpectedMessage : string.

(** [try { const {output} = await prompt(input); ...; return output; }] *)
Definition attemptBody : M iteration :=
  output <~ invoke model (Prompted input) ;;
  checked <~ lift (check output) ;;
  ret (Return checked).

(** [catch (error: any) { ... }] at attempt [attempt] with the current
    [delay]. *)
Definition handler (attempt : nat) (delay : Z) (error : exn) : M iteration :=
  match error with
  | ZodError errors => throw (Error (validationMessage errors))
  | _ =>
      let errorMessage :=
        toLowerCase (or_else (messageOf error) "Onbekende fout opgetreden") in
      if isRetryableError errorMessage then
        if (attempt <? maxRetries - 1)%nat then
          sleep delay ;;;
          ret (Continue (delay * 2))
        else
          throw (Error (exhaustedMessage
                          (or_else (messageOf error) "Onbekende API fout")))
      else
        throw error
  end.

(** [for (let attempt = 0; attempt < maxRetries; attempt++) { ... }], from
    the iteration numbered [attempt]; [remaining] is
    [maxRetries - attempt], so the loop test is [remaining <> 0].  [None]
    is the loop running to its end without a [return]. *)
Fixpoint loop (remaining : nat) (attempt : nat) (delay : Z)
  : M (option value) :=
  match remaining with
  | O => ret None
  | S remaining' =>
      it <~ try_catch attemptBody (handler attempt delay) ;;
      match it with
      | Return output => ret (Some output)
      | Continue delay' => loop remaining' (S attempt) delay'
      end
  end.

(** The body of the flow. *)
Definition retryingFlow : M value :=
  r <~ loop maxRetries 0 2000 ;;
  match r with
  | Some output => ret output
  | None => throw (Error unexpectedMessage)
  end.

End RetryLoop.

(** ** analyze-clothing-item-flow.ts *)

Module AnalyzeClothingItem.

Record AnalyzeClothingItemInput : Type := {
  photoDataUri : string
}.

Definition inputValue (input : AnalyzeClothingItemInput) : value :=
  VObj [("photoDataUri", VStr (photoDataUri input))].

Definition AnalyzeClothingItemOutputSchema : Zod.schema :=
  Zod.object_
    [("itemName", Zod.string_ None);
     ("itemType", Zod.string_ None);
     ("itemColor", Zod.string_ None);
     ("itemStyle", Zod.string_ None);
     ("fullDescription", Zod.string_ None)].

(** The [try] block after [const { output } = await prompt(input)]. *)
Definition check (output : value) : result value :=
  if negb (truthy output) then
    Err (Error "AI-analyse antwoordde, maar de output was leeg of niet in het verwachte formaat.")
  else
    _ <- Zod.parse AnalyzeClothingItemOutputSchema output ;;
    Ok output.

(** [`${e.path.join('.') || 'item'}: ${e.message}`] *)
Definition issueText (e : ZodIssue) : string :=
  or_else (Zod.pathString (path e)) "item" ++ ": " ++ message e.

Definition validationMessage (errors : list ZodIssue) : string :=
  "AI-output validatiefout: De data van de AI voldoet niet aan het verwachte formaat. Details: "
  ++ join "; " (map issueText errors).

Definition exhaustedMessage (last : string) : string :=
  "AI-analyse mislukt na " ++ of_nat maxRetries
  ++ " pogingen vanwege API-problemen (bijv. overbelasting, rate limits). Laatste fout: "
  ++ last.

Definition unexpectedMessage : string :=
  "AI-analyse is onverwacht mislukt na alle pogingen.".

Definition analyzeClothingItemFlow (model : nat -> outcome)
    (input : AnalyzeClothingItemInput) : M value :=
  retryingFlow model (inputValue input) check
    validationMessage exhaustedMessage unexpectedMessage.

Definition analyzeClothingItem (model : nat -> outcome)
    (input : AnalyzeClothingItemInput) : result value * world :=
  analyzeClothingItemFlow model input start.

End AnalyzeClothingItem.

(** ** perform-color-analysis-flow.ts *)

Module PerformColorAnalysis.

Record PerformColorAnalysisInput : Type := {
  userDataUri : string
}.

Definition inputValue (input : PerformColorAnalysisInput) : value :=
  VObj [("userDataUri", VStr (userDataUri input))].

Definition isHexDigit (c : ascii) : bool :=
  let n := nat_of_ascii c in
  ((48 <=? n) && (n <=? 57) || (65 <=? n) && (n <=? 70)
   || (97 <=? n) && (n <=? 102))%nat.

Fixpoint allHex (s : string) : bool :=
  match s with
  | EmptyString => true
  | String c r => isHexDigit c && allHex r
  end.

(** [/^#[0-9A-F]{6}$/i.test(s)] *)
Definition hexPattern (s : string) : bool :=
  match s with
  | String "#" r => (String.length r =? 6)%nat && allHex r
  | _ => false
  end.

Definition ColorInfoSchema : Zod.schema :=
  Zod.object_
    [("name", Zod.string_ None);
     ("hex", Zod.string_
               (Some (hexPattern,
                      "Moet een geldige hex-kleurcode zijn (bijv. #FF5733).")))].

Definition PerformColorAnalysisOutputSchema : Zod.schema :=
  Zod.object_
    [("seasonType", Zod.string_ None);
     ("analysisDescription", Zod.string_ None);
     ("characteristics",
       Zod.object_
         [("skinTone", Zod.string_ None);
          ("hairColor", Zod.string_ None);
          ("eyeColor", Zod.string_ None)]);
     ("recommendedColors", Zod.array_ ColorInfoSchema);
     ("avoidColors", Zod.array_ ColorInfoSchema);
     ("paletteDescription", Zod.string_ None)].

Definition unanalyzableSeasonKeywords : list string :=
  ["niet te bepalen"; "onvoldoende informatie"; "kan niet analyseren";
   "geen gezicht"; "onmogelijk te bepalen"].

Definition sentinel : string := "Niet te bepalen".

Definition fallbackDescription : string :=
  "De AI kon geen betrouwbare kleuranalyse uitvoeren op basis van de verstrekte afbeelding. Zorg voor een duidelijke foto van het gezicht bij goed daglicht, zonder zware make-up en met een neutrale achtergrond.".

Definition fallbackPalette : string :=
  "Niet te bepalen omdat het seizoen niet vastgesteld kon worden.".

(** [v.toLowerCase()] where [v] is the value of the expression [expr]:
    only a string has the method. *)
Definition lowerCaseOf (expr : string) (v : value) : result string :=
  match v with
  | VStr s => Ok (toLowerCase s)
  | VUndefined =>
      Err (TypeError "Cannot read properties of undefined (reading 'toLowerCase')")
  | VNull =>
      Err (TypeError "Cannot read properties of null (reading 'toLowerCase')")
  | _ => Err (TypeError (expr ++ ".toLowerCase is not a function"))
  end.

(** [unanalyzableSeasonKeywords.some(keyword =>
      v.toLowerCase().includes(keyword.toLowerCase()))] *)
Definition someKeyword (expr : string) (v : value) : result bool :=
  lowered <- lowerCaseOf expr v ;;
  Ok (existsb (fun keyword => includes lowered (toLowerCase keyword))
        unanalyzableSeasonKeywords).

(** [v.toLowerCase().includes("niet te bepalen")] *)
Definition mentionsSentinel (expr : string) (v : value) : result bool :=
  lowered <- lowerCaseOf expr v ;;
  Ok (includes lowered "niet te bepalen").

(** [v.length] is read: a [TypeError] when [v] is [undefined] or [null]. *)
Definition readLength (v : value) : result unit :=
  match v with
  | VUndefined =>
      Err (TypeError "Cannot read properties of undefined (reading 'length')")
  | VNull =>
      Err (TypeError "Cannot read properties of null (reading 'length')")
  | _ => Ok tt
  end.

(** [output.seasonType && unanalyzableSeasonKeywords.some(...)], as the
    condition of the [if]. *)
Definition isUnanalyzable (output : value) : result bool :=
  if truthy (get output "seasonType") then
    someKeyword "output.seasonType" (get output "seasonType")
  else Ok false.

(** The post-processing between the empty-output test and the schema
    validation.  The source mutates [output] in place; the updated object
    is returned here. *)
Definition postProcess (output : value) : result value :=
  unanalyzable <- isUnanalyzable output ;;
  if unanalyzable : bool then
    let output := set output "recommendedColors" (VArr []) in
    let output := set output "avoidColors" (VArr []) in
    replaceDescription <-
      (if negb (truthy (get output "analysisDescription")) then Ok true
       else
         found <- someKeyword "output.analysisDescription"
                    (get output "analysisDescription") ;;
         Ok (negb found)) ;;
    let output :=
      if replaceDescription : bool
      then set output "analysisDescription" (VStr fallbackDescription)
      else output in
    replaceCharacteristics <-
      (if negb (truthy (get output "characteristics")) then Ok true
       else
         found <- mentionsSentinel "output.characteristics.skinTone"
                    (get (get output "characteristics") "skinTone") ;;
         Ok (negb found)) ;;
    let output :=
      if replaceCharacteristics : bool
      then set output "characteristics"
             (VObj [("skinTone", VStr "Niet te bepalen");
                    ("hairColor", VStr "Niet te bepalen");
                    ("eyeColor", VStr "Niet te bepalen")])
      else output in
    replacePalette <-
      (if negb (truthy (get output "paletteDescription")) then Ok true
       else
         found <- mentionsSentinel "output.paletteDescription"
                    (get output "paletteDescription") ;;
         Ok (negb found)) ;;
    let output :=
      if replacePalette : bool
      then set output "paletteDescription" (VStr fallbackPalette)
      else output in
    Ok output
  else
    (* the two [if] statements of the else branch have empty bodies; their
       conditions read [.length] of both lists *)
    _ <- readLength (get output "recommendedColors") ;;
    _ <- readLength (get output "avoidColors") ;;
    Ok output.

(** The [try] block after [let { output } = await prompt(input)]. *)
Definition check (output : value) : result value :=
  if negb (truthy output) then
    Err (Error "AI-analyse antwoordde, maar de output was leeg of niet in het verwachte formaat.")
  else
    output <- postProcess output ;;
    _ <- Zod.parse PerformColorAnalysisOutputSchema output ;;
    Ok output.

(** [`Veld '${e.path.join('.') || 'root'}': ${e.message}`] *)
Definition issueText (e : ZodIssue) : string :=
  "Veld '" ++ or_else (Zod.pathString (path e)) "root" ++ "': " ++ message e.

Definition validationMessage (errors : list ZodIssue) : string :=
  "AI-output validatiefout: " ++ join "; " (map issueText errors)
  ++ ". Controleer of de AI de data in het juiste formaat retourneert, inclusief het correcte aantal kleuren indien een seizoen is bepaald.".

Definition exhaustedMessage (last : string) : string :=
  "AI-analyse mislukt na " ++ of_nat maxRetries
  ++ " pogingen vanwege API-problemen (bijv. overbelasting, rate limits). Probeer het later opnieuw. Fout: "
  ++ last.

Definition unexpectedMessage : string :=
  "De kleuranalyse is onverwacht mislukt na alle pogingen.".

Definition performColorAnalysisFlow (model : nat -> outcome)
    (input : PerformColorAnalysisInput) : M value :=
  retryingFlow model (inputValue input) check
    validationMessage exhaustedMessage unexpectedMessage.

Definition performColorAnalysis (model : nat -> outcome)
    (input : PerformColorAnalysisInput) : result value * world :=
  performColorAnalysisFlow model input start.

End PerformColorAnalysis.

(** ** generate-outfit-inspiration.ts *)

Module GenerateOutfitInspiration.

Record GenerateOutfitInspirationInput : Type := {
  bodyType : string;
  stylePreferences : string;
  clothingItems : list string
}.

Definition inputValue (input : GenerateOutfitInspirationInput) : value :=
  VObj [("bodyType", VStr (bodyType input));
        ("stylePreferences", VStr (stylePreferences input));
        ("clothingItems", VArr (map VStr (clothingItems input)))].

Definition generateOutfitInspirationFlow (model : nat -> outcome)
    (input : GenerateOutfitInspirationInput) : M value :=
  output <~ invoke model (Prompted (inputValue input)) ;;
  if negb (truthy output) || negb (truthy (get output "inspiredOutfits")) then
    throw (Error "AI response for outfit inspiration was empty or not in the expected format.")
  else ret output.

Definition generateOutfitInspiration (model : nat -> outcome)
    (input : GenerateOutfitInspirationInput) : result value * world :=
  generateOutfitInspirationFlow model input start.

End GenerateOutfitInspiration.

(** [media?.url] *)
Definition mediaUrl (m : value) : value :=
  if nullish m then VUndefined else get m "url".

(** ** generate-outfit-suggestion.ts *)

Module GenerateOutfitSuggestion.

Record GenerateOutfitSuggestionInput : Type := {
  closetDescription : string;
  weatherCondition : string;
  stylePreferences : string;
  fashionTrends : string
}.

Definition inputValue (input : GenerateOutfitSuggestionInput) : value :=
  VObj [("closetDescription", VStr (closetDescription input));
        ("weatherCondition", VStr (weatherCondition input));
        ("stylePreferences", VStr (stylePreferences input));
        ("fashionTrends", VStr (fashionTrends input))].

(** The condition of the first [if]: the text output is empty or lacks a
    required field. *)
Definition incomplete (textOutput : value) : bool :=
  negb (truthy textOutput)
  || negb (truthy (get textOutput "outfitSuggestion"))
  || negb (truthy (get textOutput "suggestedShoes"))
  || negb (truthy (get textOutput "reasoning")).

Definition imagePromptText (textOutput : value) : string :=
  "Generate a high-quality, realistic image of a person wearing the following outfit: "
  ++ to_string (get textOutput "outfitSuggestion")
  ++ ". The person should also be wearing "
  ++ to_string (get textOutput "suggestedShoes")
  ++ (if truthy (get textOutput "suggestedSocks")
      then " with " ++ to_string (get textOutput "suggestedSocks")
      else "")
  ++ ". Ensure the style is fashionable and clear, and that the shoes and any visible socks are clearly depicted. The image should be suitable for a fashion app.".

Definition generateOutfitSuggestionFlow (model : nat -> outcome)
    (input : GenerateOutfitSuggestionInput) : M value :=
  (* 1. textual suggestion, reasoning, shoes and socks *)
  textOutput <~ invoke model (Prompted (inputValue input)) ;;
  if incomplete textOutput then
    throw (Error "AI response for outfit text suggestion was empty, incomplete, or not in the expected format.")
  else
    (* 2. image from the textual suggestion *)
    media_ <~ invoke model (Generated [text (imagePromptText textOutput)]) ;;
    if negb (truthy (mediaUrl media_)) then
      throw (Error "Failed to generate outfit image.")
    else
      ret (VObj [("outfitSuggestion", get textOutput "outfitSuggestion");
                 ("reasoning", get textOutput "reasoning");
                 ("suggestedShoes", get textOutput "suggestedShoes");
                 ("suggestedSocks", get textOutput "suggestedSocks");
                 ("outfitImageUrl", get media_ "url")]).

Definition generateOutfitSuggestion (model : nat -> outcome)
    (input : GenerateOutfitSuggestionInput) : result value * world :=
  generateOutfitSuggestionFlow model input start.

End GenerateOutfitSuggestion.

(** ** generate-outfit-visualization-flow.ts *)

Module GenerateOutfitVisualization.

Record ClothingItemVisual : Type := {
  itemDescription : string;         (* [description] *)
  imageUrl : option string          (* optional *)
}.

Record GenerateOutfitVisualizationInput : Type := {
  description : string;
  items : option (list ClothingItemVisual)   (* optional *)
}.

(** The segments pushed for one item of [input.items]. *)
Definition itemSegments (item : ClothingItemVisual) : list part :=
  match imageUrl item with
  | Some url =>
      if nonempty url then
        if startsWith url "data:image" then
          [media url; text ("This is a " ++ itemDescription item ++ ".")]
        else
          [text ("(Image for " ++ itemDescription item
                 ++ " was not in correct data URI format)")]
      else [text ("- " ++ itemDescription item)]
  | None => [text ("- " ++ itemDescription item)]
  end.

Definition promptSegments (input : GenerateOutfitVisualizationInput)
  : list part :=
  [text ("Generate a high-quality, realistic image of a person wearing the following outfit: "
         ++ description input ++ ".");
   text "Ensure the style is fashionable and clear. The image should be suitable for a fashion app."]
  ++ match items input with
     | Some ((_ :: _) as its) =>
         text (String "010" (String "010" "For additional context, here are some of the items included (prioritize the main description above):"))
         :: flat_map itemSegments its
     | _ => []
     end.

Definition generateOutfitVisualizationFlow (model : nat -> outcome)
    (input : GenerateOutfitVisualizationInput) : M value :=
  media_ <~ invoke model (Generated (promptSegments input)) ;;
  if negb (truthy (mediaUrl media_)) then
    throw (Error "Failed to generate outfit visualization image. The AI might have declined the request or an unknown error occurred.")
  else
    ret (VObj [("visualizationUrl", get media_ "url")]).

Definition generateOutfitVisualization (model : nat -> outcome)
    (input : GenerateOutfitVisualizationInput) : result value * world :=
  generateOutfitVisualizationFlow model input start.

End GenerateOutfitVisualization.

(** * The vocabulary of the statements *)

Module Clothing := AnalyzeClothingItem.
Module Color := PerformColorAnalysis.

Module Suggestion := GenerateOutfitSuggestion.
Module Inspiration := GenerateOutfitInspiration.
Module Visualization := GenerateOutfitVisualization.

(** The message the [catch] block classifies, for a failure with message
    [msg]. *)
Definition classified (msg : string) : string :=
  toLowerCase (or_else msg "Onbekende fout opgetreden").

(** The log of [n] failed attempts, each followed by its suspension,
    starting with the delay [delay]. *)
Fixpoint retryLog (input : value) (n : nat) (delay : Z) : list event :=
  match n with
  | O => []
  | S n' => Prompted input :: Slept delay :: retryLog input n' (delay * 2)
  end.

(** After the call of an iteration. *)
Definition called (input : value) (w : world) : world :=
  mkWorld (S (calls w)) (log w ++ [Prompted input]).

(** The first [k] invocations of [model] from [w] fail with retryable
    messages. *)
Definition retryableRun (model : nat -> outcome) (w : world) (k : nat) : Prop :=
  forall j, (j < k)%nat ->
    exists msg, model (calls w + j) = Fails msg
                /\ isRetryableError (classified msg) = true.

(** The world after [k] retries and one more call. *)
Definition afterRetries (input : value) (k : nat) : world :=
  mkWorld (S k) (retryLog input k 2000 ++ [Prompted input]).

(** The envelope of every run of the flow. *)
Definition withinEnvelope (w : world) : Prop :=
  (1 <= invocations (log w) <= maxRetries)%nat
  /\ calls w = invocations (log w)
  /\ delays (log w)
     = map (fun k => (2000 * 2 ^ Z.of_nat k)%Z)
         (seq 0 (invocations (log w) - 1)).

(** The log of three attempts: two suspensions, of 2000 and then 4000. *)
Definition threeAttempts (input : value) : world :=
  mkWorld 3 [Prompted input; Slept 2000; Prompted input; Slept 4000;
             Prompted input].

(** The log of a single attempt: one invocation and no suspension. *)
Definition oneAttempt (input : value) : world := mkWorld 1 [Prompted input].

(** ** The colour-analysis output *)

(** The output conforms to [PerformColorAnalysisOutputSchema]. *)
Definition conforms (v : value) : Prop :=
  Zod.issues Color.PerformColorAnalysisOutputSchema [] v = [].

(** The object the post-processing assigns to [characteristics]. *)
Definition sentinelCharacteristics : value :=
  VObj [("skinTone", VStr Color.sentinel);
        ("hairColor", VStr Color.sentinel);
        ("eyeColor", VStr Color.sentinel)].

(** The value is a string that contains "niet te bepalen" in any case. *)
Definition mentions (v : value) : Prop :=
  exists s, v = VStr s /\ includes (toLowerCase s) "niet te bepalen" = true.

(** The value is a string that contains one of the keywords in any case. *)
Definition hasKeyword (v : value) : Prop :=
  exists s keyword, v = VStr s /\ In keyword Color.unanalyzableSeasonKeywords
                    /\ includes (toLowerCase s) (toLowerCase keyword) = true.

(** The schema of the [characteristics] field. *)
Definition characteristicsSchema : Zod.schema :=
  Zod.object_
    [("skinTone", Zod.string_ None);
     ("hairColor", Zod.string_ None);
     ("eyeColor", Zod.string_ None)].

(** An already normalized result: the season is
    determined, or it is undetermined with empty lists, sentinel
    characteristics and palette, and an explanation bearing a keyword. *)
Definition alreadyNormalized (o : value) : Prop :=
  Color.isUnanalyzable o = Ok false
  \/ (Color.isUnanalyzable o = Ok true
      /\ get o "recommendedColors" = VArr []
      /\ get o "avoidColors" = VArr []
      /\ get o "characteristics" = sentinelCharacteristics
      /\ get o "paletteDescription" = VStr Color.sentinel
      /\ hasKeyword (get o "analysisDescription")).

(** ** Image references *)

(** The format the input schemas describe for an image reference:
    ['data:<mimetype>;base64,<encoded_data>']. *)
Definition dataUriFormat (s : string) : bool :=
  startsWith s "data:"
  && includes (String.substring 5 (String.length s - 5) s) ";base64,".

(** ** Which flows retry *)

(** A run of a flow, as a function of the model it talks to. *)
Definition flowRun : Type := (nat -> outcome) -> result value * world.

(** A first failure with a retryable message is retried: the flow suspends
    for 2000 and invokes the model a second time. *)
Definition retriedWithBackoff (run : flowRun) : Prop :=
  forall model msg,
    model 0%nat = Fails msg -> isRetryableError (classified msg) = true ->
    (2 <= calls (snd (run model)))%nat
    /\ hd_error (delays (log (snd (run model)))) = Some 2000%Z.

(** A first failure is the failure of the flow, whatever its message: one
    invocation, recorded as [request], and no suspension. *)
Definition propagatedAtOnce (run : flowRun) (request : event) : Prop :=
  forall model msg,
    model 0%nat = Fails msg ->
    run model = (Err (Error msg), mkWorld 1 [request]).

(** ** Concrete requests and model outputs *)

(** A photo of the user, as the flow receives it. *)
Definition somePhoto : Color.PerformColorAnalysisInput :=
  {| Color.userDataUri := "data:image/png;base64,iVBORw0KGgo=" |}.

(** A model output that declares the season undetermined and still carries
    descriptions and a colour. *)
Definition strayUndetermined : value :=
  VObj [("seasonType", VStr "Niet te bepalen");
        ("analysisDescription", VStr "Er is geen gezicht zichtbaar op de foto.");
        ("characteristics",
          VObj [("skinTone", VStr "Licht");
                ("hairColor", VStr "Bruin");
                ("eyeColor", VStr "Blauw")]);
        ("recommendedColors",
          VArr [VObj [("name", VStr "Koraal"); ("hex", VStr "#FF7F50")]]);
        ("avoidColors", VArr []);
        ("paletteDescription", VStr "Warme tinten")].

(** What the flow returns for it. *)
Definition strayUndeterminedResult : value :=
  VObj [("seasonType", VStr "Niet te bepalen");
        ("analysisDescription", VStr "Er is geen gezicht zichtbaar op de foto.");
        ("characteristics",
          VObj [("skinTone", VStr "Niet te bepalen");
                ("hairColor", VStr "Niet te bepalen");
                ("eyeColor", VStr "Niet te bepalen")]);
        ("recommendedColors", VArr []);
        ("avoidColors", VArr []);
        ("paletteDescription",
          VStr "Niet te bepalen omdat het seizoen niet vastgesteld kon worden.")].

(** A model output with a determined season, one recommended colour and
    no colour to avoid. *)
Definition lenteTooFewColors : value :=
  VObj [("seasonType", VStr "Lente");
        ("analysisDescription", VStr "Warme ondertoon en lichte ogen.");
        ("characteristics",
          VObj [("skinTone", VStr "Warm met gouden ondertoon");
                ("hairColor", VStr "Goudblond");
                ("eyeColor", VStr "Helderblauw")]);
        ("recommendedColors",
          VArr [VObj [("name", VStr "Koraal"); ("hex", VStr "#FF7F50")]]);
        ("avoidColors", VArr []);
        ("paletteDescription", VStr "Heldere, warme kleuren")].

(** A visualization request with one item whose image reference is a data
    URI that is not Base64-encoded. *)
Definition jacketRequest : Visualization.GenerateOutfitVisualizationInput :=
  {| Visualization.description := "Blue denim jacket over a white t-shirt";
     Visualization.items :=
       Some [ {| Visualization.itemDescription := "Blue denim jacket";
                 Visualization.imageUrl := Some "data:image/svg+xml,%3Csvg%3E" |} ] |}.

(** A wardrobe for the inspiration flow. *)
Definition someWardrobe : Inspiration.GenerateOutfitInspirationInput :=
  {| Inspiration.bodyType := "rectangle";
     Inspiration.stylePreferences := "casual";
     Inspiration.clothingItems := ["Jeans"; "Witte sneakers"] |}.

(** A photo of a clothing item. *)
Definition someItemPhoto : Clothing.AnalyzeClothingItemInput :=
  {| Clothing.photoDataUri := "data:image/jpeg;base64,/9j/4AAQSkZJRg==" |}.

(** A well-formed analysis of a clothing item. *)
Definition tshirtAnalysis : value :=
  VObj [("itemName", VStr "Blauwe Katoenen T-shirt");
        ("itemType", VStr "T-shirt");
        ("itemColor", VStr "Marineblauw");
        ("itemStyle", VStr "Casual");
        ("fullDescription", VStr "Een marineblauw katoenen T-shirt met ronde hals.")].

(** A well-formed colour analysis with a determined season. *)
Definition lenteAnalysis : value :=
  VObj [("seasonType", VStr "Lente");
        ("analysisDescription", VStr "Warme ondertoon en lichte ogen.");
        ("characteristics",
          VObj [("skinTone", VStr "Warm met gouden ondertoon");
                ("hairColor", VStr "Goudblond");
                ("eyeColor", VStr "Helderblauw")]);
        ("recommendedColors",
          VArr [VObj [("name", VStr "Koraal"); ("hex", VStr "#FF7F50")];
                VObj [("name", VStr "Perzik"); ("hex", VStr "#FFDAB9")];
                VObj [("name", VStr "Warm Oranje"); ("hex", VStr "#FF5733")];
                VObj [("name", VStr "Turkoois"); ("hex", VStr "#40E0D0")];
                VObj [("name", VStr "Lichtgroen"); ("hex", VStr "#90ee90")]]);
        ("avoidColors",
          VArr [VObj [("name", VStr "Zwart"); ("hex", VStr "#000000")];
                VObj [("name", VStr "Koel Grijs"); ("hex", VStr "#808080")];
                VObj [("name", VStr "Bordeaux"); ("hex", VStr "#800020")]]);
        ("paletteDescription", VStr "Heldere, warme kleuren")].

(** A normalized colour analysis with an undetermined season. *)
Definition undeterminedAnalysis : value :=
  VObj [("seasonType", VStr "Niet te bepalen");
        ("analysisDescription", VStr "Er is geen gezicht zichtbaar op de foto.");
        ("characteristics",
          VObj [("skinTone", VStr "Niet te bepalen");
                ("hairColor", VStr "Niet te bepalen");
                ("eyeColor", VStr "Niet te bepalen")]);
        ("recommendedColors", VArr []);
        ("avoidColors", VArr []);
        ("paletteDescription", VStr "Niet te bepalen")].

(** An output that neither output schema accepts. *)
Definition seasonOnly : value :=
  VObj [("seasonType", VStr "Lente");
        ("recommendedColors", VArr []);
        ("avoidColors", VArr [])].

(** A model that is rate limited twice and then returns [out]. *)
Definition rateLimitedTwice (out : value) (k : nat) : outcome :=
  match k with
  | 0%nat => Fails "429 Too Many Requests: rate limit exceeded"
  | 1%nat => Fails "rate limit reached, retry later"
  | _ => Returns out
  end.

(** A model that is unavailable once and then returns [out]. *)
Definition unavailableOnce (out : value) (k : nat) : outcome :=
  match k with
  | 0%nat => Fails "503 Service Unavailable"
  | _ => Returns out
  end.

(** A request for an outfit suggestion, and a text output without
    [suggestedShoes]. *)
Definition someOutfitRequest : Suggestion.GenerateOutfitSuggestionInput :=
  {| Suggestion.closetDescription := "Jeans, wit T-shirt, blauwe blazer";
     Suggestion.weatherCondition := "Zonnig, 18 graden";
     Suggestion.stylePreferences := "Casual";
     Suggestion.fashionTrends := "Denim op denim" |}.

Definition suggestionWithoutShoes : value :=
  VObj [("outfitSuggestion", VStr "Blauwe blazer op een wit T-shirt met jeans.");
        ("reasoning", VStr "Past bij zonnig weer en een casual stijl.")].

(** A visualization request with one item whose image reference is a web
    address. *)
Definition linkedJacketRequest : Visualization.GenerateOutfitVisualizationInput :=
  {| Visualization.description := "Blue denim jacket over a white t-shirt";
     Visualization.items :=
       Some [ {| Visualization.itemDescription := "Blue denim jacket";
                 Visualization.imageUrl := Some "https://example.com/jacket.png" |} ] |}.

(** ** Further vocabulary: attempts, suspensions and models *)

(** The time a run spends suspended. *)
Definition totalDelay (l : list event) : Z := fold_right Z.add 0%Z (delays l).

(** The error thrown for an empty output. *)
Definition emptyOutputError : exn :=
  Error "AI-analyse antwoordde, maar de output was leeg of niet in het verwachte formaat.".

(** A model that is never available. *)
Definition alwaysUnavailable (k : nat) : outcome :=
  match k with
  | 0%nat => Fails "503 Service Unavailable"
  | 1%nat => Fails "The model is overloaded. Please try again later."
  | _ => Fails "Resource has been exhausted (e.g. check quota)."
  end.

(** A model that is unavailable once and then fails for good. *)
Definition unavailableThenInvalid (k : nat) : outcome :=
  match k with
  | 0%nat => Fails "503 Service Unavailable"
  | _ => Fails "400 Bad Request: invalid argument"
  end.

(** The exceptions the post-processing of the colour analysis can throw:
    a method or a property read off something that does not have it. *)
Definition postProcessErrors : list exn :=
  [TypeError "output.seasonType.toLowerCase is not a function";
   TypeError "output.analysisDescription.toLowerCase is not a function";
   TypeError "Cannot read properties of undefined (reading 'toLowerCase')";
   TypeError "Cannot read properties of null (reading 'toLowerCase')";
   TypeError "output.characteristics.skinTone.toLowerCase is not a function";
   TypeError "output.paletteDescription.toLowerCase is not a function";
   TypeError "Cannot read properties of undefined (reading 'length')";
   TypeError "Cannot read properties of null (reading 'length')"].

(** The properties the post-processing assigns to. *)
Definition postProcessedFields : list string :=
  ["recommendedColors"; "avoidColors"; "analysisDescription";
   "characteristics"; "paletteDescription"].

(** A model output that is only a verdict, with a list that is no list. *)
Definition bareVerdict : value :=
  VObj [("seasonType", VStr "Kan niet analyseren: geen gezicht gevonden");
        ("recommendedColors", VStr "geen");
        ("confidence", VNum 0)].

(** A model output whose season is a number. *)
Definition numericSeason : value := VObj [("seasonType", VNum 3)].

(** The field names of the two validated schemas. *)
Definition clothingFields : list string :=
  ["itemName"; "itemType"; "itemColor"; "itemStyle"; "fullDescription"].

Definition colorFields : list string :=
  ["seasonType"; "analysisDescription"; "characteristics";
   "recommendedColors"; "avoidColors"; "paletteDescription"].

(** The value is not an object: a primitive or an array. *)
Definition notAnObject (v : value) : Prop :=
  match v with VObj _ => False | _ => True end.

(** ** Further vocabulary: the flows that call the model directly *)

(** The references of the media parts of a prompt, in order. *)
Fixpoint mediaOf (parts : list part) : list string :=
  match parts with
  | [] => []
  | media url :: rest => url :: mediaOf rest
  | text _ :: rest => mediaOf rest
  end.

(** The image references of the items that are present, non-empty and
    begin with "data:image", in the order of the items. *)
Definition acceptedReferences
    (its : list Visualization.ClothingItemVisual) : list string :=
  flat_map
    (fun item =>
       match Visualization.imageUrl item with
       | Some url =>
           if nonempty url && startsWith url "data:image" then [url] else []
       | None => []
       end) its.

(** The items of a visualization request, none when the list is absent. *)
Definition itemsOf (input : Visualization.GenerateOutfitVisualizationInput)
  : list Visualization.ClothingItemVisual :=
  match Visualization.items input with
  | Some its => its
  | None => []
  end.

(** The world after the two calls of the suggestion flow. *)
Definition twoCalls (input : Suggestion.GenerateOutfitSuggestionInput)
    (textOutput : value) : world :=
  mkWorld 2 [Prompted (Suggestion.inputValue input);
             Generated [text (Suggestion.imagePromptText textOutput)]].

(** A complete text output of the suggestion flow, and a generated image. *)
Definition blazerSuggestion : value :=
  VObj [("outfitSuggestion", VStr "Blauwe blazer op een wit T-shirt met jeans.");
        ("reasoning", VStr "Past bij zonnig weer en een casual stijl.");
        ("suggestedShoes", VStr "Witte sneakers");
        ("suggestedSocks", VStr "Onzichtbare sokken")].

Definition generatedImage : value :=
  VObj [("url", VStr "data:image/png;base64,iVBORw0KGgo=");
        ("contentType", VStr "image/png")].

(** A model that answers the text call with [textOutput] and the image
    call with [image]. *)
Definition textThenImage (textOutput image : value) (k : nat) : outcome :=
  match k with
  | 0%nat => Returns textOutput
  | _ => Returns image
  end.

(** A list of outfits, possibly empty, as the inspiration prompt returns
    it. *)
Definition noOutfits : value := VObj [("inspiredOutfits", VArr [])].

(** A visualization request with three items: a Base64 image, a web
    address and no image. *)
Definition threeItemRequest : Visualization.GenerateOutfitVisualizationInput :=
  {| Visualization.description := "Casual outfit met blazer";
     Visualization.items :=
       Some [ {| Visualization.itemDescription := "Blauwe blazer";
                 Visualization.imageUrl := Some "data:image/png;base64,AAAA" |};
              {| Visualization.itemDescription := "Wit T-shirt";
                 Visualization.imageUrl := Some "https://example.com/shirt.png" |};
              {| Visualization.itemDescription := "Jeans";
                 Visualization.imageUrl := None |} ] |}.

(** A model output that declares the season undetermined, is normalized
    in every other respect, and still carries one colour whose code is no
    hex code. *)
Definition undeterminedWithBadColor : value :=
  VObj [("seasonType", VStr "Niet te bepalen");
        ("analysisDescription", VStr "Er is geen gezicht zichtbaar op de foto.");
        ("characteristics",
          VObj [("skinTone", VStr "Niet te bepalen");
                ("hairColor", VStr "Niet te bepalen");
                ("eyeColor", VStr "Niet te bepalen")]);
        ("recommendedColors",
          VArr [VObj [("name", VStr "Koraal"); ("hex", VStr "koraalrood")]]);
        ("avoidColors", VArr []);
        ("paletteDescription", VStr "Niet te bepalen")].

(** * Properties *)

(** ** Runs of the flows on concrete answers of the model *)

(** Three retryable failures exhaust the attempts; the last error is
    wrapped. *)
Example clothing_exhausts_three_attempts :
  Clothing.analyzeClothingItem (fun _ => Fails "503 Service Unavailable")
    someItemPhoto
  = (Err (Error "AI-analyse mislukt na 3 pogingen vanwege API-problemen (bijv. overbelasting, rate limits). Laatste fout: 503 Service Unavailable"),
     threeAttempts (Clothing.inputValue someItemPhoto)).
Proof. reflexivity. Qed.

(** An empty output is not retried. *)
Example clothing_empty_output :
  Clothing.analyzeClothingItem (fun _ => Returns VNull) someItemPhoto
  = (Err (Error "AI-analyse antwoordde, maar de output was leeg of niet in het verwachte formaat."),
     oneAttempt (Clothing.inputValue someItemPhoto)).
Proof. reflexivity. Qed.

(** Every issue of a rejected output is listed, with its path. *)
Example color_rejected_output :
  Color.performColorAnalysis (unavailableOnce seasonOnly) somePhoto
  = (Err (Error "AI-output validatiefout: Veld 'analysisDescription': Required; Veld 'characteristics': Required; Veld 'paletteDescription': Required. Controleer of de AI de data in het juiste formaat retourneert, inclusief het correcte aantal kleuren indien een seizoen is bepaald."),
     mkWorld 2 [Prompted (Color.inputValue somePhoto); Slept 2000;
                Prompted (Color.inputValue somePhoto)]).
Proof. reflexivity. Qed.

(** With a determined season and no [recommendedColors] the else branch of
    the post-processing throws before the validation is reached. *)
Example color_missing_list :
  Color.performColorAnalysis
    (fun _ => Returns (VObj [("seasonType", VStr "Lente")])) somePhoto
  = (Err (TypeError "Cannot read properties of undefined (reading 'length')"),
     oneAttempt (Color.inputValue somePhoto)).
Proof. reflexivity. Qed.

(** A complete text output is followed by the image generation. *)
Example suggestion_two_calls :
  Suggestion.generateOutfitSuggestion
    (fun k => match k with
              | 0%nat => Returns (VObj [("outfitSuggestion", VStr "Jeans met blazer");
                                        ("reasoning", VStr "Casual");
                                        ("suggestedShoes", VStr "Witte sneakers")])
              | _ => Returns (VObj [("url", VStr "data:image/png;base64,AAAA")])
              end)
    someOutfitRequest
  = (Ok (VObj [("outfitSuggestion", VStr "Jeans met blazer");
               ("reasoning", VStr "Casual");
               ("suggestedShoes", VStr "Witte sneakers");
               ("suggestedSocks", VUndefined);
               ("outfitImageUrl", VStr "data:image/png;base64,AAAA")]),
     mkWorld 2
       [Prompted (Suggestion.inputValue someOutfitRequest);
        Generated [text "Generate a high-quality, realistic image of a person wearing the following outfit: Jeans met blazer. The person should also be wearing Witte sneakers. Ensure the style is fashionable and clear, and that the shoes and any visible socks are clearly depicted. The image should be suitable for a fashion app."]]).
Proof. reflexivity. Qed.

(** ** Facts about the string operations *)

Section StringFacts.

Local Open Scope string_scope.

Lemma prefix_app (t b : string) : String.prefix t (t ++ b) = true.
Proof.
  induction t as [|c t IH]; simpl.
  - destruct b; reflexivity.
  - destruct (ascii_dec c c); [exact IH | congruence].
Qed.

Lemma prefix_inv (t s : string) :
  String.prefix t s = true -> exists b, s = t ++ b.
Proof.
  revert s; induction t as [|c t IH]; intros s H.
  - exists s; reflexivity.
  - destruct s as [|d s]; simpl in H; [discriminate|].
    destruct (ascii_dec c d) as [->|]; [|discriminate].
    destruct (IH _ H) as [b ->]. exists b; reflexivity.
Qed.

Lemma append_assoc (a b c : string) : (a ++ b) ++ c = a ++ b ++ c.
Proof. induction a; simpl; congruence. Qed.

Lemma includes_intro (a t b : string) : includes (a ++ t ++ b) t = true.
Proof.
  induction a as [|c a IH].
  - simpl. destruct (t ++ b) eqn:E; unfold includes, startsWith;
      rewrite <- E, prefix_app; reflexivity.
  - simpl. rewrite IH. apply orb_true_r.
Qed.

Lemma includes_inv (s t : string) :
  includes s t = true -> exists a b, s = a ++ t ++ b.
Proof.
  induction s as [|c s IH]; cbn [includes]; unfold startsWith; intros H.
  - rewrite orb_false_r in H. apply prefix_inv in H as [b Hb].
    exists "", b; exact Hb.
  - apply orb_true_iff in H as [H|H].
    + apply prefix_inv in H as [b Hb]. exists "", b; exact Hb.
    + destruct (IH H) as (a & b & ->). exists (String c a), b; reflexivity.
Qed.

Lemma includes_app_r (a s t : string) :
  includes s t = true -> includes (a ++ s) t = true.
Proof.
  intros H. apply includes_inv in H as (x & y & ->).
  rewrite <- append_assoc. apply includes_intro.
Qed.

Lemma includes_app_l (s b t : string) :
  includes s t = true -> includes (s ++ b) t = true.
Proof.
  intros H. apply includes_inv in H as (x & y & ->).
  rewrite !append_assoc. apply includes_intro.
Qed.

Lemma append_empty_r (t : string) : t ++ "" = t.
Proof. induction t as [|c t IH]; simpl; [reflexivity | now rewrite IH]. Qed.

Lemma includes_refl (t : string) : includes t t = true.
Proof.
  pose proof (includes_intro "" t "") as H.
  rewrite append_empty_r in H. exact H.
Qed.

Lemma toLowerCase_app (a b : string) :
  toLowerCase (a ++ b) = toLowerCase a ++ toLowerCase b.
Proof. induction a; simpl; congruence. Qed.


Lemma includes_join (sep x : string) (l : list string) :
  In x l -> includes (join sep l) x = true.
Proof.
  induction l as [|y l IH]; [intros []|].
  intros [->|Hin].
  - destruct l; simpl; [apply includes_refl|].
    apply includes_app_l, includes_refl.
  - destruct l as [|z l]; [destruct Hin|].
    change (join sep (y :: z :: l)) with (y ++ sep ++ join sep (z :: l)).
    apply includes_app_r, includes_app_r, IH, Hin.
Qed.

End StringFacts.

(** ** Facts about the retry classification *)

Lemma classified_nonempty (msg : string) :
  nonempty msg = true -> classified msg = toLowerCase msg.
Proof. unfold classified, or_else. now intros ->. Qed.



(** A message none of whose lower-cased occurrences is a keyword is not
    retried, the empty message included. *)
Lemma not_retryable_classified (msg : string) :
  isRetryableError (toLowerCase msg) = false ->
  isRetryableError (classified msg) = false.
Proof.
  intros H. destruct msg as [|c r]; [reflexivity|].
  rewrite classified_nonempty by reflexivity. exact H.
Qed.

(** ** Facts about the retry loop *)

Lemma invocations_app (l l' : list event) :
  invocations (l ++ l') = (invocations l + invocations l')%nat.
Proof. unfold invocations. now rewrite filter_app, length_app. Qed.

Lemma delays_app (l l' : list event) : delays (l ++ l') = delays l ++ delays l'.
Proof.
  induction l as [|e l IH]; [reflexivity|].
  destruct e; simpl; now rewrite IH.
Qed.

Lemma invocations_retryLog (input : value) (n : nat) (delay : Z) :
  invocations (retryLog input n delay) = n.
Proof.
  revert delay; induction n as [|n IH]; intros delay; [reflexivity|].
  change (retryLog input (S n) delay)
    with ([Prompted input; Slept delay] ++ retryLog input n (delay * 2)).
  rewrite invocations_app, IH. reflexivity.
Qed.

(** The suspensions of [n] retries: [delay], [2 delay], [4 delay], ... *)
Lemma delays_retryLog (input : value) (n : nat) (delay : Z) :
  delays (retryLog input n delay)
  = map (fun k => (delay * 2 ^ Z.of_nat k)%Z) (seq 0 n).
Proof.
  revert delay; induction n as [|n IH]; intros delay; [reflexivity|].
  cbn [retryLog delays seq map]. rewrite IH, <- seq_shift, map_map.
  f_equal; [simpl; lia|].
  apply map_ext; intros k. rewrite Nat2Z.inj_succ, Z.pow_succ_r by lia. lia.
Qed.

Section RetryFacts.

Variable model : nat -> outcome.
Variable input : value.
Variable check : value -> result value.
Variable validationMessage : list ZodIssue -> string.
Variable exhaustedMessage : string -> string.
Variable unexpectedMessage : string.

Let run := loop model input check validationMessage exhaustedMessage.

(** A successful iteration returns the checked output. *)
Lemma loop_returns (r attempt : nat) (delay : Z) (w : world) (raw out : value) :
  model (calls w) = Returns raw -> check raw = Ok out ->
  run (S r) attempt delay w = (Ok (Some out), called input w).
Proof.
  intros Hm Hc. unfold run. cbn [loop].
  unfold bind, try_catch, attemptBody, bind, invoke, lift, ret.
  rewrite Hm, Hc. reflexivity.
Qed.

(** A [ZodError] ends the loop with the validation error, whatever the
    attempt. *)
Lemma loop_zod (r attempt : nat) (delay : Z) (w : world) (raw : value)
    (errors : list ZodIssue) :
  model (calls w) = Returns raw -> check raw = Err (ZodError errors) ->
  run (S r) attempt delay w = (Err (Error (validationMessage errors)), called input w).
Proof.
  intros Hm Hc. unfold run. cbn [loop].
  unfold bind, try_catch, attemptBody, bind, invoke, lift, ret.
  rewrite Hm, Hc. reflexivity.
Qed.

(** A failure that is not retryable is thrown again as it is. *)
Lemma loop_fatal (r attempt : nat) (delay : Z) (w : world) (msg : string) :
  model (calls w) = Fails msg -> isRetryableError (classified msg) = false ->
  run (S r) attempt delay w = (Err (Error msg), called input w).
Proof.
  intros Hm Hc. unfold run. cbn [loop].
  unfold bind, try_catch, attemptBody, bind, invoke, lift, ret, handler.
  rewrite Hm. cbn [messageOf]. fold (classified msg). rewrite Hc. reflexivity.
Qed.

(** A retryable failure before the last attempt suspends for the current
    delay and goes round with the delay doubled. *)
Lemma loop_retry (r attempt : nat) (delay : Z) (w : world) (msg : string) :
  model (calls w) = Fails msg -> isRetryableError (classified msg) = true ->
  (attempt < maxRetries - 1)%nat ->
  run (S r) attempt delay w
  = run r (S attempt) (delay * 2)%Z
      (mkWorld (S (calls w)) (log w ++ [Prompted input; Slept delay])).
Proof.
  intros Hm Hc Hlt. unfold run. cbn [loop].
  unfold bind at 1. unfold try_catch, attemptBody, bind, invoke, lift, ret, handler.
  rewrite Hm. cbn [messageOf]. fold (classified msg). rewrite Hc.
  apply Nat.ltb_lt in Hlt. rewrite Hlt. unfold bind, sleep, ret.
  cbn [calls log]. rewrite <- app_assoc. reflexivity.
Qed.

(** A retryable failure of the last attempt is wrapped. *)
Lemma loop_exhausted (r attempt : nat) (delay : Z) (w : world) (msg : string) :
  model (calls w) = Fails msg -> isRetryableError (classified msg) = true ->
  (maxRetries - 1 <= attempt)%nat ->
  run (S r) attempt delay w
  = (Err (Error (exhaustedMessage (or_else msg "Onbekende API fout"))), called input w).
Proof.
  intros Hm Hc Hle. unfold run. cbn [loop].
  unfold bind, try_catch, attemptBody, bind, invoke, lift, ret, handler.
  rewrite Hm. cbn [messageOf]. fold (classified msg). rewrite Hc.
  apply Nat.ltb_ge in Hle. rewrite Hle. reflexivity.
Qed.

(** [k] retryable failures in a row, with attempts to spare, are [k]
    rounds of call, suspension and doubling. *)
Lemma loop_retries (k r attempt : nat) (delay : Z) (w : world) :
  retryableRun model w k -> (attempt + k <= maxRetries - 1)%nat ->
  run (k + r) attempt delay w
  = run r (attempt + k) (delay * 2 ^ Z.of_nat k)%Z
      (mkWorld (calls w + k) (log w ++ retryLog input k delay)).
Proof.
  revert attempt delay w.
  induction k as [|k IH]; intros attempt delay w Hrun Hle.
  - rewrite !Nat.add_0_r, app_nil_r, Z.mul_1_r. now destruct w.
  - destruct (Hrun 0%nat) as (msg & Hm & Hc); [lia|].
    rewrite Nat.add_0_r in Hm.
    change (S k + r)%nat with (S (k + r)).
    rewrite (loop_retry _ _ _ _ msg Hm Hc) by lia.
    rewrite IH.
    + cbn [calls log retryLog]. rewrite <- app_assoc.
      rewrite Nat2Z.inj_succ, Z.pow_succ_r by lia.
      f_equal; [lia | lia | f_equal; lia].
    + intros j Hj. destruct (Hrun (S j)) as (m & Hm' & Hc'); [lia|].
      exists m. split; [|exact Hc']. cbn [calls].
      now rewrite Nat.add_succ_comm.
    + lia.
Qed.

(** One iteration either leaves the loop right after its call, by a
    [return] or by a [throw], or, before the last attempt only, suspends
    once for the current delay and hands on the doubled delay. *)
Lemma iteration_cases (attempt : nat) (delay : Z) (w : world) :
  let it := try_catch (attemptBody model input check)
              (handler validationMessage exhaustedMessage attempt delay) w in
  (snd it = called input w
   /\ ((exists raw out, model (calls w) = Returns raw /\ check raw = Ok out
                        /\ fst it = Ok (Return out))
       \/ (exists e, fst it = Err e)))
  \/ ((attempt < maxRetries - 1)%nat
      /\ fst it = Ok (Continue (delay * 2)%Z)
      /\ snd it = mkWorld (S (calls w))
                    (log w ++ [Prompted input; Slept delay])).
Proof.
  unfold try_catch, attemptBody, bind, invoke, lift, ret.
  assert (Hcatch : forall e : exn,
    let it := handler validationMessage exhaustedMessage attempt delay e
                (called input w) in
    (snd it = called input w /\ exists e', fst it = Err e')
    \/ ((attempt < maxRetries - 1)%nat
        /\ fst it = Ok (Continue (delay * 2)%Z)
        /\ snd it = mkWorld (S (calls w))
                      (log w ++ [Prompted input; Slept delay]))).
  { intros e. unfold handler.
    destruct e as [errors|m|m]; cbn [messageOf];
      [left; split; [reflexivity | eexists; reflexivity] | |];
      (destruct (isRetryableError _);
       [ destruct (Nat.ltb_spec attempt (maxRetries - 1));
         [ right; split; [assumption|]; unfold bind, sleep, ret, called;
           cbn [calls log fst snd]; rewrite <- app_assoc; split; reflexivity
         | left; split; [reflexivity | eexists; reflexivity] ]
       | left; split; [reflexivity | eexists; reflexivity] ]). }
  destruct (model (calls w)) as [raw|msg].
  - destruct (check raw) as [out|e] eqn:Hc.
    + left. split; [reflexivity|]. left. exists raw, out. auto.
    + destruct (Hcatch e) as [[Hw [e' He']]|H]; [left | right; exact H].
      split; [exact Hw|]. right. exists e'; exact He'.
  - destruct (Hcatch (Error msg)) as [[Hw [e' He']]|H]; [left | right; exact H].
    split; [exact Hw|]. right. exists e'; exact He'.
Qed.

(** The loop as a whole: started with attempts left, it never runs to
    its end; it makes between one and [remaining] invocations, and its
    log is that many attempts separated by doubling suspensions. *)
Lemma loop_shape (remaining attempt : nat) (delay : Z) (w : world) :
  (attempt + remaining = maxRetries)%nat -> (0 < remaining)%nat ->
  fst (run remaining attempt delay w) <> Ok None
  /\ exists n, (n < remaining)%nat
       /\ snd (run remaining attempt delay w)
          = mkWorld (calls w + S n)
              (log w ++ retryLog input n delay ++ [Prompted input]).
Proof.
  revert attempt delay w.
  induction remaining as [|r IH]; intros attempt delay w Hsum Hpos; [lia|].
  unfold run. cbn [loop]. unfold bind.
  pose proof (iteration_cases attempt delay w) as Hit. cbv zeta in Hit.
  destruct (try_catch _ _ w) as [res w'] eqn:E. cbn [fst snd] in Hit.
  destruct Hit as [[-> [(raw & out & _ & _ & ->)|[e ->]]]|(Hlt & -> & ->)].
  - split; [discriminate|]. exists 0%nat. split; [lia|].
    unfold ret, called. cbn [snd retryLog app]. now rewrite Nat.add_1_r.
  - split; [discriminate|]. exists 0%nat. split; [lia|].
    unfold called. cbn [snd retryLog app]. now rewrite Nat.add_1_r.
  - destruct (IH (S attempt) (delay * 2)%Z
                (mkWorld (S (calls w)) (log w ++ [Prompted input; Slept delay])))
      as [Hne (n & Hn & Hw)]; [lia | lia |].
    split; [exact Hne|]. exists (S n). split; [lia|].
    fold run. rewrite Hw. cbn [calls log retryLog].
    rewrite <- app_assoc. f_equal. lia.
Qed.

(** What the loop returns is the checked output of its last invocation. *)
Lemma loop_result_origin (remaining attempt : nat) (delay : Z) (w w' : world)
    (out : value) :
  run remaining attempt delay w = (Ok (Some out), w') ->
  exists raw, model (pred (calls w')) = Returns raw /\ check raw = Ok out.
Proof.
  revert attempt delay w.
  induction remaining as [|r IH]; intros attempt delay w; [discriminate|].
  unfold run. cbn [loop]. unfold bind.
  pose proof (iteration_cases attempt delay w) as Hit. cbv zeta in Hit.
  destruct (try_catch _ _ w) as [res w1]. cbn [fst snd] in Hit.
  destruct Hit as [[-> [(raw & o & Hm & Hc & ->)|[e ->]]]|(Hlt & -> & ->)].
  - unfold ret. intros [= <- <-]. exists raw. split; assumption.
  - discriminate.
  - apply IH.
Qed.

(** The flow adds nothing to what the loop did. *)
Lemma retryingFlow_world (w : world) :
  snd (retryingFlow model input check validationMessage exhaustedMessage
         unexpectedMessage w)
  = snd (run maxRetries 0%nat 2000%Z w).
Proof.
  unfold retryingFlow, bind, run.
  destruct (loop _ _ _ _ _ _ _ _ w) as [[[out|]|e] w']; reflexivity.
Qed.

Lemma retryingFlow_result (w : world) (r : result (option value)) (w' : world) :
  run maxRetries 0%nat 2000%Z w = (r, w') ->
  retryingFlow model input check validationMessage exhaustedMessage
    unexpectedMessage w
  = (match r with
     | Ok (Some out) => Ok out
     | Ok None => Err (Error unexpectedMessage)
     | Err e => Err e
     end, w').
Proof.
  unfold retryingFlow, bind, run. intros ->.
  destruct r as [[out|]|e]; reflexivity.
Qed.

Let flow := retryingFlow model input check validationMessage exhaustedMessage
              unexpectedMessage.

Lemma run_after_retries (k : nat) :
  (k < maxRetries)%nat -> retryableRun model start k ->
  run maxRetries 0%nat 2000%Z start
  = run (S (maxRetries - 1 - k)) k (2000 * 2 ^ Z.of_nat k)%Z
      (mkWorld k (retryLog input k 2000)).
Proof.
  intros Hk Hrun.
  replace maxRetries with (k + S (maxRetries - 1 - k))%nat at 1 by lia.
  unfold run. rewrite loop_retries by (assumption || lia). reflexivity.
Qed.

(** After [k] retryable failures the next output passes the checks: the
    flow returns it. *)
Lemma flow_returns_after (k : nat) (raw out : value) :
  (k < maxRetries)%nat -> retryableRun model start k ->
  model k = Returns raw -> check raw = Ok out ->
  flow start = (Ok out, afterRetries input k).
Proof.
  intros Hk Hrun Hm Hc. unfold flow.
  apply (retryingFlow_result start (Ok (Some out)) (afterRetries input k)).
  rewrite (run_after_retries k Hk Hrun).
  unfold run. erewrite loop_returns; [| exact Hm | exact Hc].
  unfold called, afterRetries. reflexivity.
Qed.

(** After [k] retryable failures the next output is rejected by the
    schema: the flow fails there and then. *)
Lemma flow_invalid_after (k : nat) (raw : value) (errors : list ZodIssue) :
  (k < maxRetries)%nat -> retryableRun model start k ->
  model k = Returns raw -> check raw = Err (ZodError errors) ->
  flow start = (Err (Error (validationMessage errors)), afterRetries input k).
Proof.
  intros Hk Hrun Hm Hc. unfold flow.
  apply (retryingFlow_result start
           (Err (Error (validationMessage errors))) (afterRetries input k)).
  rewrite (run_after_retries k Hk Hrun).
  unfold run. erewrite loop_zod; [| exact Hm | exact Hc].
  unfold called, afterRetries. reflexivity.
Qed.

(** A first failure that is not retryable is the flow's failure. *)
Lemma flow_fatal (msg : string) :
  model 0%nat = Fails msg -> isRetryableError (classified msg) = false ->
  flow start = (Err (Error msg), afterRetries input 0).
Proof.
  intros Hm Hc. unfold flow.
  apply (retryingFlow_result start (Err (Error msg)) (afterRetries input 0)).
  apply (loop_fatal 2 0 2000 start msg Hm Hc).
Qed.

Lemma flow_result_origin (out : value) (w : world) :
  flow start = (Ok out, w) ->
  exists raw, model (pred (calls w)) = Returns raw /\ check raw = Ok out.
Proof.
  unfold flow, retryingFlow, bind.
  destruct (loop _ _ _ _ _ _ _ _ start) as [[[o|]|e] w'] eqn:E;
    unfold ret, throw; intros [= <- <-].
  apply (loop_result_origin _ _ _ _ _ _ E).
Qed.

Lemma flow_envelope :
  withinEnvelope (snd (flow start))
  /\ fst (run maxRetries 0%nat 2000%Z start) <> Ok None.
Proof.
  destruct (loop_shape maxRetries 0 2000 start) as [Hne (n & Hn & Hw)];
    [reflexivity | unfold maxRetries; lia |].
  split; [|exact Hne].
  unfold flow. rewrite retryingFlow_world, Hw. unfold withinEnvelope.
  cbn [calls log start app].
  rewrite invocations_app, invocations_retryLog, delays_app, delays_retryLog.
  cbn [invocations filter length delays].
  rewrite app_nil_r, Nat.add_1_r, Nat.sub_succ, Nat.sub_0_r.
  repeat split; lia.
Qed.

(** A first failure that is retryable is followed by a suspension of
    2000 and a second invocation. *)
Lemma flow_retries_first (msg : string) :
  model 0%nat = Fails msg -> isRetryableError (classified msg) = true ->
  exists n,
    snd (flow start)
    = mkWorld (S (S n))
        (Prompted input :: Slept 2000 :: retryLog input n 4000
         ++ [Prompted input]).
Proof.
  intros Hm Hc. unfold flow. rewrite retryingFlow_world.
  change maxRetries with 3%nat.
  rewrite (loop_retry 2 0 2000 start msg Hm Hc) by (unfold maxRetries; lia).
  destruct (loop_shape 2 1 (2000 * 2)
              (mkWorld 1 (log start ++ [Prompted input; Slept 2000])))
    as [_ (n & _ & Hw)]; [reflexivity | lia |].
  exists n. exact Hw.
Qed.

End RetryFacts.

Lemma Ok_inj {A} (a b : A) : Ok a = Ok b -> a = b.
Proof. now intros [= ->]. Qed.

(** ** Facts about objects *)

Section ObjectFacts.

Implicit Types (k : string) (x : value) (props : list (string * value)).

Lemma lookup_assign_same k x props : lookup k (assign k x props) = Some x.
Proof.
  induction props as [|[k' v'] rest IH]; simpl.
  - now rewrite String.eqb_refl.
  - destruct (String.eqb k k') eqn:E; simpl; rewrite E; [reflexivity | exact IH].
Qed.

Lemma lookup_assign_other k k' x props :
  String.eqb k k' = false -> lookup k' (assign k x props) = lookup k' props.
Proof.
  intros Hne. induction props as [|[k0 v0] rest IH]; simpl.
  - rewrite String.eqb_sym, Hne. reflexivity.
  - destruct (String.eqb k k0) eqn:E; simpl.
    + apply String.eqb_eq in E. subst k0.
      rewrite String.eqb_sym, Hne. reflexivity.
    + now rewrite IH.
Qed.

(** Assigning to a property the value it has changes nothing. *)
Lemma assign_same k x props : lookup k props = Some x -> assign k x props = props.
Proof.
  induction props as [|[k' v'] rest IH]; simpl; [discriminate|].
  destruct (String.eqb k k'); [now intros [= ->] | intros H; now rewrite IH].
Qed.

Lemma get_assign_same k x props : get (VObj (assign k x props)) k = x.
Proof. unfold get. now rewrite lookup_assign_same. Qed.

Lemma get_assign_other k k' x props :
  String.eqb k k' = false ->
  get (VObj (assign k x props)) k' = get (VObj props) k'.
Proof. intros H. unfold get. now rewrite lookup_assign_other. Qed.

(** A property read as something defined is an own property. *)
Lemma get_defined k x props :
  get (VObj props) k = x -> x <> VUndefined -> lookup k props = Some x.
Proof.
  unfold get. destruct (lookup k props); [now intros -> | congruence].
Qed.

Lemma set_same k x props :
  get (VObj props) k = x -> x <> VUndefined -> set (VObj props) k x = VObj props.
Proof.
  intros H Hx. unfold set. now rewrite (assign_same _ _ _ (get_defined _ _ _ H Hx)).
Qed.

(** Only an object has a truthy property. *)
Lemma truthy_get_object (v : value) k :
  truthy (get v k) = true -> exists props, v = VObj props.
Proof. destruct v; try discriminate. intros _. eexists; reflexivity. Qed.

End ObjectFacts.

(** ** Facts about the colour-analysis output and its post-processing *)

Module ColorFacts.

Import PerformColorAnalysis.

Lemma someKeyword_true (expr : string) (v : value) :
  someKeyword expr v = Ok true <-> hasKeyword v.
Proof.
  unfold someKeyword, hasKeyword. split.
  - destruct v; cbn [lowerCaseOf bindR]; try discriminate. intros H.
    apply Ok_inj, existsb_exists in H as (kw & Hin & Hkw). exists s, kw. auto.
  - intros (s & kw & -> & Hin & Hkw). cbn [lowerCaseOf bindR]. f_equal.
    apply existsb_exists. exists kw. auto.
Qed.

Lemma mentionsSentinel_true (expr : string) (v : value) :
  mentionsSentinel expr v = Ok true <-> mentions v.
Proof.
  unfold mentionsSentinel, mentions. split.
  - destruct v; cbn [lowerCaseOf bindR]; try discriminate.
    intros H. apply Ok_inj in H. exists s. auto.
  - intros (s & -> & H). cbn [lowerCaseOf bindR]. now rewrite H.
Qed.

(** A season that matches a keyword makes the output unanalyzable. *)
Lemma isUnanalyzable_true (v : value) :
  isUnanalyzable v = Ok true <-> hasKeyword (get v "seasonType").
Proof.
  unfold isUnanalyzable. split.
  - destruct (truthy _); [apply someKeyword_true | discriminate].
  - intros H. pose proof H as (s & kw & Hs & Hin & Hkw). rewrite Hs.
    assert (Ht : truthy (VStr s) = true).
    { destruct s; [|reflexivity]. exfalso.
      simpl in Hin. decompose [or] Hin; subst; try discriminate; contradiction. }
    rewrite Ht, <- Hs. now apply someKeyword_true.
Qed.

Lemma string_issues (p : list pathItem) (v : value) :
  Zod.issues (Zod.string_ None) p v = [] <-> exists s, v = VStr s.
Proof.
  split.
  - destruct v; try discriminate. eexists; reflexivity.
  - intros [s ->]. reflexivity.
Qed.

(** Conformance is decided field by field, from what [get] reads. *)
Lemma issues_object (props : list (string * value)) :
  Zod.issues PerformColorAnalysisOutputSchema [] (VObj props)
  = flat_map (fun ks => Zod.issues (snd ks) [Key (fst ks)]
                          (get (VObj props) (fst ks)))
      [("seasonType", Zod.string_ None);
       ("analysisDescription", Zod.string_ None);
       ("characteristics",
         Zod.object_
           [("skinTone", Zod.string_ None);
            ("hairColor", Zod.string_ None);
            ("eyeColor", Zod.string_ None)]);
       ("recommendedColors", Zod.array_ ColorInfoSchema);
       ("avoidColors", Zod.array_ ColorInfoSchema);
       ("paletteDescription", Zod.string_ None)].
Proof. reflexivity. Qed.

Lemma conforms_object (v : value) :
  conforms v -> exists props, v = VObj props.
Proof. destruct v; try discriminate. eexists; reflexivity. Qed.

Lemma hasKeyword_truthy (v : value) : hasKeyword v -> truthy v = true.
Proof.
  intros (s & kw & -> & Hin & Hkw). destruct s; [|reflexivity]. exfalso.
  simpl in Hin. decompose [or] Hin; subst; try discriminate; contradiction.
Qed.

Lemma mentions_truthy (v : value) : mentions v -> truthy v = true.
Proof. intros (s & -> & H). destruct s; [discriminate | reflexivity]. Qed.

Lemma mentions_object (v : value) (k : string) :
  mentions (get v k) -> truthy v = true.
Proof.
  intros H. apply mentions_truthy in H.
  apply truthy_get_object in H as [props ->]. reflexivity.
Qed.

(** The test that guards each replacement: replace when [guard] is falsy
    or the test [tested] on the text fails. *)
Lemma replace_decision (guard : value) (tested : result bool) (P : Prop)
    (b : bool) :
  (tested = Ok true <-> P) -> (P -> truthy guard = true) ->
  (if negb (truthy guard) then Ok true
   else found <- tested ;; Ok (negb found)) = Ok b ->
  if b then ~ P else P.
Proof.
  intros Htest Htruthy. destruct (truthy guard) eqn:T; cbn [negb].
  - destruct tested as [[|]|e] eqn:K; cbn [bindR negb];
      try discriminate; intros H; apply Ok_inj in H; subst b.
    + now apply Htest.
    + intros HP. apply Htest in HP. congruence.
  - intros H; apply Ok_inj in H; subst b.
    intros HP. apply Htruthy in HP. congruence.
Qed.

Ltac read_fields :=
  repeat (rewrite get_assign_same || rewrite get_assign_other by reflexivity).

(** What the post-processing does to an object whose season matches a
    keyword: both lists are emptied; the explanation, the characteristics
    and the palette description are kept when they already speak of the
    analysis being impossible, and are replaced otherwise; the season is
    left alone. *)
Lemma postProcess_unanalyzable (raw out : value) :
  isUnanalyzable raw = Ok true -> postProcess raw = Ok out ->
  (exists props, out = VObj props)
  /\ get out "seasonType" = get raw "seasonType"
  /\ get out "recommendedColors" = VArr []
  /\ get out "avoidColors" = VArr []
  /\ (hasKeyword (get raw "analysisDescription")
         /\ get out "analysisDescription" = get raw "analysisDescription"
      \/ ~ hasKeyword (get raw "analysisDescription")
         /\ get out "analysisDescription" = VStr fallbackDescription)
  /\ (mentions (get (get raw "characteristics") "skinTone")
         /\ get out "characteristics" = get raw "characteristics"
      \/ ~ mentions (get (get raw "characteristics") "skinTone")
         /\ get out "characteristics" = sentinelCharacteristics)
  /\ (mentions (get raw "paletteDescription")
         /\ get out "paletteDescription" = get raw "paletteDescription"
      \/ ~ mentions (get raw "paletteDescription")
         /\ get out "paletteDescription" = VStr fallbackPalette).
Proof.
  intros Hun Hpost.
  assert (exists props, raw = VObj props) as [props ->].
  { apply isUnanalyzable_true in Hun. apply hasKeyword_truthy in Hun.
    now apply truthy_get_object in Hun. }
  unfold postProcess in Hpost. rewrite Hun in Hpost.
  cbn [bindR set] in Hpost. cbv zeta in Hpost. revert Hpost. read_fields.
  destruct (if negb (truthy (get (VObj props) "analysisDescription")) then _ else _)
    as [replaceDescription|e] eqn:Ed; [|discriminate].
  apply (replace_decision _ _ (hasKeyword (get (VObj props) "analysisDescription")))
    in Ed; [| apply someKeyword_true | apply hasKeyword_truthy].
  cbn [bindR].
  destruct replaceDescription; cbn [set]; read_fields;
    (destruct (if negb (truthy (get (VObj props) "characteristics")) then _ else _)
       as [replaceCharacteristics|e] eqn:Ec; [|discriminate]);
    (apply (replace_decision _ _
              (mentions (get (get (VObj props) "characteristics") "skinTone")))
       in Ec; [| apply mentionsSentinel_true | apply mentions_object]);
    cbn [bindR];
    destruct replaceCharacteristics; cbn [set]; read_fields;
    (destruct (if negb (truthy (get (VObj props) "paletteDescription")) then _ else _)
       as [replacePalette|e] eqn:Ep; [|discriminate]);
    (apply (replace_decision _ _ (mentions (get (VObj props) "paletteDescription")))
       in Ep; [| apply mentionsSentinel_true | apply mentions_truthy]);
    cbn [bindR];
    destruct replacePalette; cbn [set];
    intros H; apply Ok_inj in H; subst out;
    (split; [eexists; reflexivity|]); read_fields;
    repeat split; auto.
Qed.

(** With a determined season the output is passed on as it is, unless
    reading the length of a missing list throws. *)
Lemma postProcess_determined (raw out : value) :
  isUnanalyzable raw = Ok false -> postProcess raw = Ok out -> out = raw.
Proof.
  intros Hun. unfold postProcess. rewrite Hun. cbn [bindR].
  destruct (readLength (get raw "recommendedColors")); [|discriminate].
  destruct (readLength (get raw "avoidColors")); [|discriminate].
  cbn [bindR]. intros H. now apply Ok_inj in H.
Qed.

Lemma postProcess_determined_lists (raw : value) (rc ac : list value) :
  isUnanalyzable raw = Ok false ->
  get raw "recommendedColors" = VArr rc -> get raw "avoidColors" = VArr ac ->
  postProcess raw = Ok raw.
Proof.
  intros Hun Hrc Hac. unfold postProcess. rewrite Hun, Hrc, Hac. reflexivity.
Qed.

(** The guard of a replacement lets a text that passes its test stand. *)
Lemma replace_keep (guard : value) (tested : result bool) :
  tested = Ok true -> truthy guard = true ->
  (if negb (truthy guard) then Ok true
   else found <- tested ;; Ok (negb found)) = Ok false.
Proof. intros -> ->. reflexivity. Qed.

(** Outputs the post-processing leaves as they are: the season matches a
    keyword, the lists are empty, the explanation bears a keyword or is
    the fallback text, and skin tone and palette speak of "niet te
    bepalen". *)
Lemma postProcess_stable (o : value) :
  isUnanalyzable o = Ok true ->
  get o "recommendedColors" = VArr [] -> get o "avoidColors" = VArr [] ->
  hasKeyword (get o "analysisDescription")
    \/ get o "analysisDescription" = VStr fallbackDescription ->
  mentions (get (get o "characteristics") "skinTone") ->
  mentions (get o "paletteDescription") ->
  postProcess o = Ok o.
Proof.
  intros Hun Hrc Hac Hd Hc Hp.
  assert (exists props, o = VObj props) as [props ->].
  { apply isUnanalyzable_true in Hun. apply hasKeyword_truthy in Hun.
    now apply truthy_get_object in Hun. }
  unfold postProcess. rewrite Hun. cbn [bindR]. cbv zeta.
  rewrite (set_same "recommendedColors") by (assumption || discriminate).
  rewrite (set_same "avoidColors") by (assumption || discriminate).
  assert (Hdesc :
    exists b, (if negb (truthy (get (VObj props) "analysisDescription"))
               then Ok true
               else found <- someKeyword "output.analysisDescription"
                               (get (VObj props) "analysisDescription") ;;
                    Ok (negb found)) = Ok b
              /\ (if b then set (VObj props) "analysisDescription"
                              (VStr fallbackDescription)
                  else VObj props) = VObj props).
  { destruct Hd as [Hd|Hd].
    - exists false. split; [|reflexivity].
      apply replace_keep; [now apply someKeyword_true | now apply hasKeyword_truthy].
    - exists true. rewrite Hd. split; [reflexivity|].
      apply set_same; [exact Hd | discriminate]. }
  destruct Hdesc as (b & Hb & Hset). rewrite Hb. cbn [bindR]. rewrite Hset.
  rewrite replace_keep;
    [| now apply mentionsSentinel_true | now apply mentions_object in Hc].
  cbn [bindR].
  rewrite replace_keep;
    [| now apply mentionsSentinel_true | now apply mentions_truthy].
  reflexivity.
Qed.

Lemma isUnanalyzable_season (a b : value) :
  get a "seasonType" = get b "seasonType" -> isUnanalyzable a = isUnanalyzable b.
Proof. unfold isUnanalyzable. now intros ->. Qed.

Lemma mentions_sentinel : mentions (VStr sentinel).
Proof. exists sentinel. split; reflexivity. Qed.

Lemma mentions_fallbackPalette : mentions (VStr fallbackPalette).
Proof. exists fallbackPalette. split; reflexivity. Qed.

(** The post-processing is idempotent on whatever it accepts. *)
Lemma postProcess_idempotent (raw out : value) :
  postProcess raw = Ok out -> postProcess out = Ok out.
Proof.
  intros Hpost. destruct (isUnanalyzable raw) as [[|]|e] eqn:Hun.
  - destruct (postProcess_unanalyzable raw out Hun Hpost)
      as (_ & Hs & Hrc & Hac & Hd & Hc & Hp).
    apply postProcess_stable; try assumption.
    + now rewrite (isUnanalyzable_season out raw Hs).
    + destruct Hd as [[Hk ->]|[_ ->]]; [left; exact Hk | right; reflexivity].
    + destruct Hc as [[Hk ->]|[_ ->]]; [exact Hk | apply mentions_sentinel].
    + destruct Hp as [[Hk ->]|[_ ->]]; [exact Hk | apply mentions_fallbackPalette].
  - assert (out = raw) as -> by exact (postProcess_determined raw out Hun Hpost).
    exact Hpost.
  - unfold postProcess in Hpost. rewrite Hun in Hpost. discriminate.
Qed.

(** Conformance, field by field. *)
Lemma conforms_fields (props : list (string * value)) :
  let o := VObj props in
  conforms o <->
  (exists s, get o "seasonType" = VStr s)
  /\ (exists s, get o "analysisDescription" = VStr s)
  /\ Zod.issues characteristicsSchema [Key "characteristics"]
       (get o "characteristics") = []
  /\ Zod.issues (Zod.array_ ColorInfoSchema) [Key "recommendedColors"]
       (get o "recommendedColors") = []
  /\ Zod.issues (Zod.array_ ColorInfoSchema) [Key "avoidColors"]
       (get o "avoidColors") = []
  /\ (exists s, get o "paletteDescription" = VStr s).
Proof.
  cbv zeta. unfold conforms. rewrite issues_object. cbn [flat_map fst snd].
  fold characteristicsSchema. split.
  - intros H.
    apply app_eq_nil in H as [H1 H]. apply app_eq_nil in H as [H2 H].
    apply app_eq_nil in H as [H3 H]. apply app_eq_nil in H as [H4 H].
    apply app_eq_nil in H as [H5 H]. apply app_eq_nil in H as [H6 _].
    apply string_issues in H1, H2, H6. auto 7.
  - intros (H1 & H2 & H3 & H4 & H5 & H6).
    apply (string_issues [Key "seasonType"]) in H1.
    apply (string_issues [Key "analysisDescription"]) in H2.
    apply (string_issues [Key "paletteDescription"]) in H6.
    rewrite H1, H2, H3, H4, H5, H6. reflexivity.
Qed.

Lemma characteristics_issues (p : list pathItem) (v : value) :
  Zod.issues characteristicsSchema p v = [] ->
  exists s, get v "skinTone" = VStr s.
Proof.
  destruct v; try discriminate. cbn [Zod.issues characteristicsSchema].
  intros H. apply app_eq_nil in H as [H _]. now apply string_issues in H.
Qed.

Lemma array_issues (p : list pathItem) (v : value) :
  Zod.issues (Zod.array_ ColorInfoSchema) p v = [] -> exists xs, v = VArr xs.
Proof. destruct v; try discriminate. eexists; reflexivity. Qed.

(** On an unanalyzable output whose three texts are strings the
    post-processing completes. *)
Lemma postProcess_completes (raw : value) (d sk p : string) :
  isUnanalyzable raw = Ok true ->
  get raw "analysisDescription" = VStr d ->
  get (get raw "characteristics") "skinTone" = VStr sk ->
  get raw "paletteDescription" = VStr p ->
  exists out, postProcess raw = Ok out.
Proof.
  intros Hun Hd Hsk Hp.
  assert (exists props, raw = VObj props) as [props ->].
  { apply isUnanalyzable_true in Hun. apply hasKeyword_truthy in Hun.
    now apply truthy_get_object in Hun. }
  assert (Hc : truthy (get (VObj props) "characteristics") = true).
  { destruct (get (VObj props) "characteristics"); try discriminate; reflexivity. }
  unfold postProcess. rewrite Hun. cbn [bindR set]. cbv zeta. read_fields.
  rewrite Hd. cbn [someKeyword lowerCaseOf bindR].
  destruct (if negb (truthy (VStr d)) then _ else _) as [[|]|e] eqn:Ed;
    [| | destruct (truthy (VStr d)); discriminate];
    cbn [bindR set]; read_fields; rewrite Hc, Hsk;
    cbn [negb mentionsSentinel lowerCaseOf bindR];
    destruct (negb (includes (toLowerCase sk) _)); cbn [set]; read_fields;
    rewrite Hp; cbn [mentionsSentinel lowerCaseOf bindR];
    destruct (truthy (VStr p)); cbn [negb bindR];
    eexists; reflexivity.
Qed.

(** A conforming output passes the post-processing and still conforms;
    with a determined season it is not touched. *)
Lemma conforms_postProcess (raw : value) :
  conforms raw ->
  exists out, postProcess raw = Ok out /\ conforms out
              /\ (isUnanalyzable raw = Ok false -> out = raw).
Proof.
  intros Hconf. destruct (conforms_object raw Hconf) as [props ->].
  pose proof Hconf as Hf. apply conforms_fields in Hf. cbv zeta in Hf.
  destruct Hf as ([s Hs] & [d Hd] & Hch & Hrc & Hac & [p Hp]).
  destruct (characteristics_issues _ _ Hch) as [sk Hsk].
  destruct (array_issues _ _ Hrc) as [rc Hrc'].
  destruct (array_issues _ _ Hac) as [ac Hac'].
  assert (exists b, isUnanalyzable (VObj props) = Ok b) as [[|] Hun].
  { unfold isUnanalyzable. rewrite Hs. destruct (truthy (VStr s));
      eexists; reflexivity. }
  - destruct (postProcess_completes _ d sk p Hun Hd Hsk Hp) as [out Hout].
    exists out. split; [exact Hout|]. split; [|congruence].
    destruct (postProcess_unanalyzable _ _ Hun Hout)
      as ([props' ->] & Es & Erc & Eac & Ed & Ec & Ep).
    apply conforms_fields. cbv zeta. rewrite Es, Erc, Eac.
    repeat split; try reflexivity.
    + eauto.
    + destruct Ed as [[_ ->]|[_ ->]]; eauto.
    + destruct Ec as [[_ ->]|[_ ->]]; [exact Hch | reflexivity].
    + destruct Ep as [[_ ->]|[_ ->]]; eauto.
  - exists (VObj props).
    split; [exact (postProcess_determined_lists _ rc ac Hun Hrc' Hac')|].
    split; [exact Hconf | reflexivity].
Qed.

End ColorFacts.

(** * The retry / validation envelope of the two analysis flows *)

Lemma clothing_check_conforming (out : value) :
  Zod.issues Clothing.AnalyzeClothingItemOutputSchema [] out = [] ->
  Clothing.check out = Ok out.
Proof.
  intros H. unfold Clothing.check, Zod.parse. rewrite H.
  destruct out; try discriminate. reflexivity.
Qed.

Lemma color_check_conforming (out : value) :
  conforms out ->
  exists res, Color.postProcess out = Ok res /\ Color.check out = Ok res
              /\ (Color.isUnanalyzable out = Ok false -> res = out).
Proof.
  intros H. destruct (ColorFacts.conforms_postProcess out H) as (res & Hp & Hc & Hd).
  exists res. split; [exact Hp|]. split; [|exact Hd].
  unfold Color.check. destruct (ColorFacts.conforms_object out H) as [props ->].
  cbn [truthy negb]. rewrite Hp. cbn [bindR]. unfold Zod.parse.
  unfold conforms in Hc. rewrite Hc. reflexivity.
Qed.




(** C5.  In both analysis flows, a first model failure whose message
    contains none of the retryable keywords ends the flow after that one
    invocation, with no suspension, and the flow fails with that very
    error. *)
Theorem non_retryable_failure_is_rethrown
    (model : nat -> outcome) (msg : string)
    (ci : Clothing.AnalyzeClothingItemInput)
    (pi : Color.PerformColorAnalysisInput) :
  model 0%nat = Fails msg ->
  isRetryableError (toLowerCase msg) = false ->
  Clothing.analyzeClothingItem model ci
  = (Err (Error msg), oneAttempt (Clothing.inputValue ci))
  /\ Color.performColorAnalysis model pi
     = (Err (Error msg), oneAttempt (Color.inputValue pi)).
Proof.
  intros Hm Hn. apply not_retryable_classified in Hn.
  split; apply flow_fatal; assumption.
Qed.

Lemma non_retryable_failure_is_rethrown_witness :
  isRetryableError (toLowerCase "invalid argument") = false
  /\ Clothing.analyzeClothingItem (fun _ => Fails "invalid argument") someItemPhoto
     = (Err (Error "invalid argument"),
        oneAttempt (Clothing.inputValue someItemPhoto))
  /\ Color.performColorAnalysis (fun _ => Fails "invalid argument") somePhoto
     = (Err (Error "invalid argument"),
        oneAttempt (Color.inputValue somePhoto)).
Proof.
  split; [reflexivity|].
  apply (non_retryable_failure_is_rethrown (fun _ => Fails "invalid argument")
           "invalid argument" someItemPhoto somePhoto); reflexivity.
Defined.

(** C7.  Whatever the model answers, each analysis flow makes at least one
    and at most three invocations, the suspensions between them are 2000,
    4000, ... (each the double of the one before), and the loop never runs
    to its end: the error thrown after the loop is unreachable. *)
Theorem retry_loop_envelope
    (model : nat -> outcome)
    (ci : Clothing.AnalyzeClothingItemInput)
    (pi : Color.PerformColorAnalysisInput) :
  (withinEnvelope (snd (Clothing.analyzeClothingItem model ci))
   /\ fst (loop model (Clothing.inputValue ci) Clothing.check
             Clothing.validationMessage Clothing.exhaustedMessage
             maxRetries 0 2000 start) <> Ok None)
  /\ (withinEnvelope (snd (Color.performColorAnalysis model pi))
      /\ fst (loop model (Color.inputValue pi) Color.check
                Color.validationMessage Color.exhaustedMessage
                maxRetries 0 2000 start) <> Ok None).
Proof. split; apply flow_envelope. Qed.

Lemma clothing_check_rejected (raw : value) :
  truthy raw = true ->
  Zod.issues Clothing.AnalyzeClothingItemOutputSchema [] raw <> [] ->
  Clothing.check raw
  = Err (ZodError (Zod.issues Clothing.AnalyzeClothingItemOutputSchema [] raw)).
Proof.
  intros Ht Hne. unfold Clothing.check, Zod.parse. rewrite Ht. cbn [negb].
  destruct (Zod.issues _ _ raw); [congruence | reflexivity].
Qed.

Lemma color_check_rejected (raw processed : value) :
  truthy raw = true -> Color.postProcess raw = Ok processed ->
  Zod.issues Color.PerformColorAnalysisOutputSchema [] processed <> [] ->
  Color.check raw
  = Err (ZodError (Zod.issues Color.PerformColorAnalysisOutputSchema [] processed)).
Proof.
  intros Ht Hp Hne. unfold Color.check, Zod.parse. rewrite Ht, Hp. cbn [negb bindR].
  destruct (Zod.issues _ _ processed); [congruence | reflexivity].
Qed.

Lemma clothing_message_lists (errors : list ZodIssue) (e : ZodIssue) :
  In e errors ->
  includes (Clothing.validationMessage errors) (Clothing.issueText e) = true.
Proof.
  intros Hin. unfold Clothing.validationMessage.
  apply includes_app_r, includes_join, in_map, Hin.
Qed.

Lemma color_message_lists (errors : list ZodIssue) (e : ZodIssue) :
  In e errors ->
  includes (Color.validationMessage errors) (Color.issueText e) = true.
Proof.
  intros Hin. unfold Color.validationMessage.
  apply includes_app_r, includes_app_l, includes_join, in_map, Hin.
Qed.

Lemma unavailableOnce_retryableRun (out : value) :
  retryableRun (unavailableOnce out) start 1.
Proof.
  intros j Hj. exists "503 Service Unavailable".
  destruct j as [|j]; [split; reflexivity | lia].
Qed.

(** C6, as stated, fails for the colour analysis: an output that the
    output schema rejects (here a colour whose code is no hex code) does not
    make the flow fail when its season is undetermined; the post-processing
    empties the lists before the validation, and the flow returns. *)
Lemma rejected_raw_output_is_repaired_and_returned :
  Zod.issues Color.PerformColorAnalysisOutputSchema [] undeterminedWithBadColor
  = [mkIssue [Key "recommendedColors"; Index 0; Key "hex"]
       "Moet een geldige hex-kleurcode zijn (bijv. #FF5733)."]
  /\ Color.performColorAnalysis (fun _ => Returns undeterminedWithBadColor)
       somePhoto
     = (Ok undeterminedAnalysis, oneAttempt (Color.inputValue somePhoto)).
Proof. split; reflexivity. Qed.

(** C6, amended.  In both analysis flows, when the schema validation
    rejects the output returned at some attempt (after any number of
    retried failures), the flow fails at once: the rejected output's
    invocation is the last entry of the log, so nothing is invoked or
    awaited after it.  What is validated is the non-empty output of the
    model in the clothing analysis, and that output as the post-processing
    leaves it in the colour analysis.  The error thrown carries the fixed
    opening (and, in the colour analysis, closing) text around the entries
    of all the issues zod reports, joined by "; "; so for every issue the
    message contains its path joined by "." (or "item", respectively
    "root", for the empty path), then ": " (respectively "': " after
    "Veld '") and the message of the issue. *)
Theorem validation_failure_is_final
    (model : nat -> outcome) (k : nat) (raw : value)
    (ci : Clothing.AnalyzeClothingItemInput)
    (pi : Color.PerformColorAnalysisInput) :
  (k < maxRetries)%nat -> retryableRun model start k ->
  model k = Returns raw -> truthy raw = true ->
  (let errors := Zod.issues Clothing.AnalyzeClothingItemOutputSchema [] raw in
   let entry := fun e : ZodIssue =>
     (or_else (Zod.pathString (path e)) "item" ++ ": " ++ message e)%string in
   errors <> [] ->
   exists thrown : string,
     Clothing.analyzeClothingItem model ci
     = (Err (Error thrown), afterRetries (Clothing.inputValue ci) k)
     /\ thrown
        = ("AI-output validatiefout: De data van de AI voldoet niet aan het verwachte formaat. Details: "
           ++ join "; " (map entry errors))%string
     /\ forall e, In e errors -> includes thrown (entry e) = true)
  /\ (forall processed, Color.postProcess raw = Ok processed ->
      let errors := Zod.issues Color.PerformColorAnalysisOutputSchema [] processed in
      let entry := fun e : ZodIssue =>
        ("Veld '" ++ or_else (Zod.pathString (path e)) "root" ++ "': "
         ++ message e)%string in
      errors <> [] ->
      exists thrown : string,
        Color.performColorAnalysis model pi
        = (Err (Error thrown), afterRetries (Color.inputValue pi) k)
        /\ thrown
           = ("AI-output validatiefout: " ++ join "; " (map entry errors)
              ++ ". Controleer of de AI de data in het juiste formaat retourneert, inclusief het correcte aantal kleuren indien een seizoen is bepaald.")%string
        /\ forall e, In e errors -> includes thrown (entry e) = true).
Proof.
  intros Hk Hrun Hm Ht. split.
  - intros errors entry Hne.
    exists (Clothing.validationMessage errors). split; [|split].
    + apply (flow_invalid_after model _ _ _ _ _ k raw errors Hk Hrun Hm).
      now apply clothing_check_rejected.
    + reflexivity.
    + intros e He. exact (clothing_message_lists errors e He).
  - intros processed Hp errors entry Hne.
    exists (Color.validationMessage errors). split; [|split].
    + apply (flow_invalid_after model _ _ _ _ _ k raw errors Hk Hrun Hm).
      now apply color_check_rejected.
    + reflexivity.
    + intros e He. exact (color_message_lists errors e He).
Qed.

Lemma validation_failure_is_final_witness :
  ((1 < maxRetries)%nat
   /\ Zod.issues Clothing.AnalyzeClothingItemOutputSchema [] seasonOnly <> []
   /\ Color.postProcess seasonOnly = Ok seasonOnly
   /\ Zod.issues Color.PerformColorAnalysisOutputSchema [] seasonOnly <> [])
  /\ (exists thrown : string,
        Clothing.analyzeClothingItem (unavailableOnce seasonOnly) someItemPhoto
        = (Err (Error thrown), afterRetries (Clothing.inputValue someItemPhoto) 1)
        /\ thrown
           = ("AI-output validatiefout: De data van de AI voldoet niet aan het verwachte formaat. Details: "
              ++ join "; "
                   (map (fun e : ZodIssue =>
                           (or_else (Zod.pathString (path e)) "item" ++ ": "
                            ++ message e)%string)
                      (Zod.issues Clothing.AnalyzeClothingItemOutputSchema []
                         seasonOnly)))%string
        /\ forall e,
             In e (Zod.issues Clothing.AnalyzeClothingItemOutputSchema [] seasonOnly) ->
             includes thrown
               (or_else (Zod.pathString (path e)) "item" ++ ": " ++ message e)%string
             = true)
  /\ (exists thrown : string,
        Color.performColorAnalysis (unavailableOnce seasonOnly) somePhoto
        = (Err (Error thrown), afterRetries (Color.inputValue somePhoto) 1)
        /\ thrown
           = ("AI-output validatiefout: "
              ++ join "; "
                   (map (fun e : ZodIssue =>
                           ("Veld '" ++ or_else (Zod.pathString (path e)) "root"
                            ++ "': " ++ message e)%string)
                      (Zod.issues Color.PerformColorAnalysisOutputSchema []
                         seasonOnly))
              ++ ". Controleer of de AI de data in het juiste formaat retourneert, inclusief het correcte aantal kleuren indien een seizoen is bepaald.")%string
        /\ forall e,
             In e (Zod.issues Color.PerformColorAnalysisOutputSchema [] seasonOnly) ->
             includes thrown
               ("Veld '" ++ or_else (Zod.pathString (path e)) "root" ++ "': "
                ++ message e)%string
             = true).
Proof.
  assert (H1 : (1 < maxRetries)%nat) by (unfold maxRetries; lia).
  split; [split; [exact H1 | split; [discriminate | split; [reflexivity | discriminate]]]|].
  pose proof (validation_failure_is_final (unavailableOnce seasonOnly) 1
                seasonOnly someItemPhoto somePhoto H1
                (unavailableOnce_retryableRun seasonOnly) eq_refl eq_refl)
    as [Hcl Hco].
  split.
  - apply Hcl. discriminate.
  - apply (Hco seasonOnly eq_refl). discriminate.
Defined.

(** * The colour-analysis output *)

Lemma color_check_postProcess (raw res : value) :
  Color.check raw = Ok res -> Color.postProcess raw = Ok res.
Proof.
  unfold Color.check. destruct (truthy raw); cbn [negb]; [|discriminate].
  destruct (Color.postProcess raw) as [o|e]; cbn [bindR]; [|discriminate].
  destruct (Zod.parse _ o); cbn [bindR]; [|discriminate].
  intros H. now apply Ok_inj in H as ->.
Qed.

(** C2, as stated, fails: for an output whose season is "Niet te bepalen"
    the returned palette description is the sentence "Niet te bepalen omdat
    het seizoen niet vastgesteld kon worden.", not the sentinel. *)
Lemma undetermined_palette_is_not_the_sentinel :
  hasKeyword (get strayUndetermined "seasonType")
  /\ Color.performColorAnalysis (fun _ => Returns strayUndetermined) somePhoto
     = (Ok strayUndeterminedResult, oneAttempt (Color.inputValue somePhoto))
  /\ get strayUndeterminedResult "paletteDescription" <> VStr Color.sentinel.
Proof.
  split; [|split].
  - exists "Niet te bepalen", "niet te bepalen".
    split; [reflexivity|]. split; [left; reflexivity | reflexivity].
  - reflexivity.
  - discriminate.
Qed.

(** C2, amended.  When the output the flow returns comes from a model
    output whose season matches an undetermined-keyword, both colour lists
    of the result are empty, its skin tone and its palette description
    contain "niet te bepalen" in some letter case, all three
    characteristics equal the sentinel whenever the raw skin tone did not
    contain it, and the palette description is the fixed sentence whenever
    the raw one did not contain it. *)
Theorem undetermined_season_result
    (model : nat -> outcome) (pi : Color.PerformColorAnalysisInput)
    (raw res : value) (w : world) :
  Color.performColorAnalysis model pi = (Ok res, w) ->
  model (pred (calls w)) = Returns raw ->
  hasKeyword (get raw "seasonType") ->
  get res "recommendedColors" = VArr []
  /\ get res "avoidColors" = VArr []
  /\ mentions (get (get res "characteristics") "skinTone")
  /\ (~ mentions (get (get raw "characteristics") "skinTone") ->
      get res "characteristics" = sentinelCharacteristics)
  /\ mentions (get res "paletteDescription")
  /\ (~ mentions (get raw "paletteDescription") ->
      get res "paletteDescription" = VStr Color.fallbackPalette).
Proof.
  intros Hflow Hm Hseason.
  destruct (flow_result_origin _ _ _ _ _ _ _ _ Hflow) as (raw' & Hm' & Hc).
  assert (raw' = raw) as -> by congruence.
  apply color_check_postProcess in Hc.
  apply ColorFacts.isUnanalyzable_true in Hseason.
  destruct (ColorFacts.postProcess_unanalyzable raw res Hseason Hc)
    as (_ & _ & Hrc & Hac & _ & Hch & Hp).
  repeat split; try assumption.
  - destruct Hch as [[Hk ->]|[_ ->]]; [exact Hk | apply ColorFacts.mentions_sentinel].
  - intros Hn. destruct Hch as [[Hk _]|[_ E]]; [contradiction | exact E].
  - destruct Hp as [[Hk ->]|[_ ->]];
      [exact Hk | apply ColorFacts.mentions_fallbackPalette].
  - intros Hn. destruct Hp as [[Hk _]|[_ E]]; [contradiction | exact E].
Qed.

Lemma undetermined_season_result_witness :
  (Color.performColorAnalysis (fun _ => Returns strayUndetermined) somePhoto
   = (Ok strayUndeterminedResult, oneAttempt (Color.inputValue somePhoto))
   /\ hasKeyword (get strayUndetermined "seasonType"))
  /\ get strayUndeterminedResult "recommendedColors" = VArr []
  /\ get strayUndeterminedResult "avoidColors" = VArr []
  /\ mentions
       (get (get strayUndeterminedResult "characteristics") "skinTone")
  /\ (~ mentions
          (get (get strayUndetermined "characteristics") "skinTone") ->
      get strayUndeterminedResult "characteristics"
      = sentinelCharacteristics)
  /\ mentions (get strayUndeterminedResult "paletteDescription")
  /\ (~ mentions (get strayUndetermined "paletteDescription") ->
      get strayUndeterminedResult "paletteDescription"
      = VStr Color.fallbackPalette).
Proof.
  assert (Hk : hasKeyword (get strayUndetermined "seasonType")).
  { exists "Niet te bepalen", "niet te bepalen".
    split; [reflexivity|]. split; [left; reflexivity | reflexivity]. }
  split; [split; [reflexivity | exact Hk]|].
  apply (undetermined_season_result (fun _ => Returns strayUndetermined)
           somePhoto strayUndetermined strayUndeterminedResult
           (oneAttempt (Color.inputValue somePhoto)));
    [reflexivity | reflexivity | exact Hk].
Defined.

(** A conforming output with a determined season is returned as it is,
    however many colours its lists hold. *)
Lemma determined_output_is_returned
    (model : nat -> outcome) (pi : Color.PerformColorAnalysisInput) (raw : value) :
  model 0%nat = Returns raw -> conforms raw ->
  Color.isUnanalyzable raw = Ok false ->
  Color.performColorAnalysis model pi
  = (Ok raw, oneAttempt (Color.inputValue pi)).
Proof.
  intros Hm Hconf Hdet.
  destruct (color_check_conforming raw Hconf) as (res & _ & Hc & E).
  rewrite (E Hdet) in Hc.
  apply (flow_returns_after model _ _ _ _ _ 0 raw raw);
    [unfold maxRetries; lia | intros j Hj; lia | exact Hm | exact Hc].
Qed.

(** C3 does not hold of the code: the schema puts no minimum on the two
    lists, so a determined season with one recommended colour and no
    colour to avoid passes the validation and is returned. *)
Theorem too_few_colors_are_accepted :
  Color.isUnanalyzable lenteTooFewColors = Ok false
  /\ get lenteTooFewColors "recommendedColors"
     = VArr [VObj [("name", VStr "Koraal"); ("hex", VStr "#FF7F50")]]
  /\ get lenteTooFewColors "avoidColors" = VArr []
  /\ Color.performColorAnalysis (fun _ => Returns lenteTooFewColors) somePhoto
     = (Ok lenteTooFewColors, oneAttempt (Color.inputValue somePhoto)).
Proof. repeat split. Qed.

(** C9.  A result that conforms to the output schema and is already
    normalized goes through the normalization pass unchanged, and so
    through the whole of the checks the flow applies to an output. *)
Theorem normalizer_keeps_normalized (o : value) :
  conforms o -> alreadyNormalized o ->
  Color.postProcess o = Ok o /\ Color.check o = Ok o.
Proof.
  intros Hconf Hnorm.
  assert (Hpost : Color.postProcess o = Ok o).
  { destruct Hnorm as [Hdet|(Hun & Hrc & Hac & Hch & Hp & Hd)].
    - destruct (ColorFacts.conforms_postProcess o Hconf) as (out & Hout & _ & E).
      now rewrite <- (E Hdet) at 2.
    - apply ColorFacts.postProcess_stable; try assumption.
      + left; exact Hd.
      + rewrite Hch. apply ColorFacts.mentions_sentinel.
      + rewrite Hp. apply ColorFacts.mentions_sentinel. }
  split; [exact Hpost|].
  destruct (color_check_conforming o Hconf) as (res & Hp & Hc & _).
  congruence.
Qed.

Lemma undeterminedAnalysis_normalized : alreadyNormalized undeterminedAnalysis.
Proof.
  right. repeat split.
  exists "Er is geen gezicht zichtbaar op de foto.", "geen gezicht".
  split; [reflexivity|]. split; [|reflexivity].
  right. right. right. left. reflexivity.
Qed.

Lemma normalizer_keeps_normalized_witness :
  (conforms lenteAnalysis /\ alreadyNormalized lenteAnalysis
   /\ conforms undeterminedAnalysis /\ alreadyNormalized undeterminedAnalysis)
  /\ (Color.postProcess lenteAnalysis = Ok lenteAnalysis
      /\ Color.check lenteAnalysis = Ok lenteAnalysis)
  /\ (Color.postProcess undeterminedAnalysis = Ok undeterminedAnalysis
      /\ Color.check undeterminedAnalysis = Ok undeterminedAnalysis).
Proof.
  assert (Hl : alreadyNormalized lenteAnalysis) by (left; reflexivity).
  split; [|split].
  - split; [reflexivity|]. split; [exact Hl|]. split; [reflexivity|].
    exact undeterminedAnalysis_normalized.
  - apply (normalizer_keeps_normalized lenteAnalysis); [reflexivity | exact Hl].
  - apply (normalizer_keeps_normalized undeterminedAnalysis);
      [reflexivity | exact undeterminedAnalysis_normalized].
Defined.

(** * The flows that call the model directly *)

(** C8.  In the outfit-suggestion flow, when the text call returns an
    output that is empty, or in which [outfitSuggestion], [suggestedShoes]
    or [reasoning] is missing, the flow fails with an error after that one
    call: the image generation is never invoked. *)
Theorem incomplete_text_output_stops_the_flow
    (model : nat -> outcome) (input : Suggestion.GenerateOutfitSuggestionInput)
    (textOutput : value) :
  model 0%nat = Returns textOutput ->
  truthy textOutput = false
    \/ get textOutput "outfitSuggestion" = VUndefined
    \/ get textOutput "suggestedShoes" = VUndefined
    \/ get textOutput "reasoning" = VUndefined ->
  Suggestion.generateOutfitSuggestion model input
  = (Err (Error "AI response for outfit text suggestion was empty, incomplete, or not in the expected format."),
     oneAttempt (Suggestion.inputValue input))
  /\ forall prompt,
       ~ In (Generated prompt)
            (log (snd (Suggestion.generateOutfitSuggestion model input))).
Proof.
  intros Hm Hinc.
  assert (Hi : Suggestion.incomplete textOutput = true).
  { unfold Suggestion.incomplete.
    destruct Hinc as [H|[H|[H|H]]]; rewrite H; cbn [truthy negb];
      rewrite ?orb_true_r; reflexivity. }
  assert (E : Suggestion.generateOutfitSuggestion model input
              = (Err (Error "AI response for outfit text suggestion was empty, incomplete, or not in the expected format."),
                 oneAttempt (Suggestion.inputValue input))).
  { unfold Suggestion.generateOutfitSuggestion,
      Suggestion.generateOutfitSuggestionFlow, bind, invoke.
    cbn [calls start]. rewrite Hm, Hi. reflexivity. }
  split; [exact E|]. rewrite E. cbn [snd log oneAttempt].
  intros prompt [H|[]]. discriminate.
Qed.

Lemma incomplete_text_output_stops_the_flow_witness :
  get suggestionWithoutShoes "suggestedShoes" = VUndefined
  /\ Suggestion.generateOutfitSuggestion
       (fun _ => Returns suggestionWithoutShoes) someOutfitRequest
     = (Err (Error "AI response for outfit text suggestion was empty, incomplete, or not in the expected format."),
        oneAttempt (Suggestion.inputValue someOutfitRequest))
  /\ forall prompt,
       ~ In (Generated prompt)
            (log (snd (Suggestion.generateOutfitSuggestion
                         (fun _ => Returns suggestionWithoutShoes)
                         someOutfitRequest))).
Proof.
  split; [reflexivity|].
  apply (incomplete_text_output_stops_the_flow
           (fun _ => Returns suggestionWithoutShoes) someOutfitRequest
           suggestionWithoutShoes);
    [reflexivity | right; right; left; reflexivity].
Defined.

(** C10, as stated, fails: a reference that is not of the form
    [data:<mime>;base64,<payload>] is passed to the model as media. *)
Lemma malformed_reference_is_passed_as_media :
  dataUriFormat "data:image/svg+xml,%3Csvg%3E" = false
  /\ In (media "data:image/svg+xml,%3Csvg%3E")
        (Visualization.promptSegments jacketRequest)
  /\ log (snd (Visualization.generateOutfitVisualization
                 (fun _ => Returns VNull) jacketRequest))
     = [Generated (Visualization.promptSegments jacketRequest)].
Proof.
  split; [reflexivity|]. split; [|reflexivity].
  cbn. right. right. right. left. reflexivity.
Qed.

Lemma itemSegments_media (item : Visualization.ClothingItemVisual) (url : string) :
  In (media url) (Visualization.itemSegments item) ->
  startsWith url "data:image" = true.
Proof.
  unfold Visualization.itemSegments.
  destruct (Visualization.imageUrl item) as [u|]; [|intros [H|[]]; discriminate].
  destruct (nonempty u); [|intros [H|[]]; discriminate].
  destruct (startsWith u "data:image") eqn:E; [|intros [H|[]]; discriminate].
  intros [H|[H|[]]]; [|discriminate]. now injection H as <-.
Qed.

(** C10, amended.  In the visualization flow an image reference that does
    not start with "data:image" is never among the media of the prompt sent
    to the model, and an item that carries such a reference contributes the
    one text note saying so. *)
Theorem reference_without_prefix_is_not_media
    (input : Visualization.GenerateOutfitVisualizationInput) (url : string) :
  startsWith url "data:image" = false ->
  ~ In (media url) (Visualization.promptSegments input)
  /\ (forall model,
        log (snd (Visualization.generateOutfitVisualization model input))
        = [Generated (Visualization.promptSegments input)])
  /\ (forall item,
        Visualization.imageUrl item = Some url -> nonempty url = true ->
        Visualization.itemSegments item
        = [text ("(Image for " ++ Visualization.itemDescription item
                 ++ " was not in correct data URI format)")]).
Proof.
  intros Hpre. split; [|split].
  - intros Hin. unfold Visualization.promptSegments in Hin.
    apply in_app_or in Hin as [[H|[H|[]]]|Hin]; try discriminate.
    destruct (Visualization.items input) as [[|it its]|]; try contradiction.
    destruct Hin as [H|Hin]; [discriminate|].
    apply in_flat_map in Hin as (item & _ & Hitem).
    apply itemSegments_media in Hitem. congruence.
  - intros model. unfold Visualization.generateOutfitVisualization,
      Visualization.generateOutfitVisualizationFlow, bind, invoke.
    cbn [calls start log].
    destruct (model 0%nat) as [m|msg]; [|reflexivity].
    destruct (negb (truthy (mediaUrl m))); reflexivity.
  - intros item Hu Hne. unfold Visualization.itemSegments.
    rewrite Hu, Hne, Hpre. reflexivity.
Qed.

Lemma reference_without_prefix_is_not_media_witness :
  startsWith "https://example.com/jacket.png" "data:image" = false
  /\ ~ In (media "https://example.com/jacket.png")
         (Visualization.promptSegments linkedJacketRequest)
  /\ (forall model,
        log (snd (Visualization.generateOutfitVisualization model
                    linkedJacketRequest))
        = [Generated (Visualization.promptSegments linkedJacketRequest)])
  /\ (forall item,
        Visualization.imageUrl item = Some "https://example.com/jacket.png" ->
        nonempty "https://example.com/jacket.png" = true ->
        Visualization.itemSegments item
        = [text ("(Image for " ++ Visualization.itemDescription item
                 ++ " was not in correct data URI format)")]).
Proof.
  split; [reflexivity|].
  apply (reference_without_prefix_is_not_media linkedJacketRequest
           "https://example.com/jacket.png"); reflexivity.
Defined.

(** * Which flows retry *)

(** C1, as stated, fails: the outfit-inspiration flow does not retry a
    failure whose message is "rate limit"; it makes one call and fails. *)
Lemma inspiration_flow_does_not_retry :
  isRetryableError (classified "rate limit") = true
  /\ Inspiration.generateOutfitInspiration (fun _ => Fails "rate limit")
       someWardrobe
     = (Err (Error "rate limit"),
        oneAttempt (Inspiration.inputValue someWardrobe))
  /\ ~ retriedWithBackoff
         (fun model => Inspiration.generateOutfitInspiration model someWardrobe).
Proof.
  split; [reflexivity|]. split; [reflexivity|].
  intros H.
  destruct (H (fun _ => Fails "rate limit") "rate limit" eq_refl eq_refl)
    as [_ Hd].
  discriminate Hd.
Qed.

Lemma retryingFlow_retried (input : value) (check : value -> result value)
    (vm : list ZodIssue -> string) (em : string -> string) (um : string) :
  retriedWithBackoff
    (fun model => retryingFlow model input check vm em um start).
Proof.
  intros model msg Hm Hc.
  destruct (flow_retries_first model input check vm em um msg Hm Hc) as [n ->].
  cbn [calls log delays hd_error]. split; [lia | reflexivity].
Qed.

(** C1, amended.  The two analysis flows call the model inside the retry
    loop: a first failure with a retryable message is followed by a
    suspension of 2000 and a second call.  The outfit-suggestion, the
    outfit-inspiration and the outfit-visualization flows call the model
    directly: a failure of the call is the failure of the flow, whatever
    its message, and no suspension takes place; this holds for the second
    call of the suggestion flow as well. *)
Theorem only_the_analysis_flows_retry
    (ci : Clothing.AnalyzeClothingItemInput)
    (pi : Color.PerformColorAnalysisInput)
    (si : Suggestion.GenerateOutfitSuggestionInput)
    (ii : Inspiration.GenerateOutfitInspirationInput)
    (vi : Visualization.GenerateOutfitVisualizationInput) :
  retriedWithBackoff (fun model => Clothing.analyzeClothingItem model ci)
  /\ retriedWithBackoff (fun model => Color.performColorAnalysis model pi)
  /\ propagatedAtOnce (fun model => Suggestion.generateOutfitSuggestion model si)
       (Prompted (Suggestion.inputValue si))
  /\ propagatedAtOnce (fun model => Inspiration.generateOutfitInspiration model ii)
       (Prompted (Inspiration.inputValue ii))
  /\ propagatedAtOnce
       (fun model => Visualization.generateOutfitVisualization model vi)
       (Generated (Visualization.promptSegments vi))
  /\ (forall model textOutput msg,
        model 0%nat = Returns textOutput ->
        Suggestion.incomplete textOutput = false ->
        model 1%nat = Fails msg ->
        Suggestion.generateOutfitSuggestion model si
        = (Err (Error msg),
           mkWorld 2 [Prompted (Suggestion.inputValue si);
                      Generated [text (Suggestion.imagePromptText textOutput)]])).
Proof.
  split; [apply retryingFlow_retried|].
  split; [apply retryingFlow_retried|].
  split; [|split; [|split]].
  - intros model msg Hm.
    unfold Suggestion.generateOutfitSuggestion,
      Suggestion.generateOutfitSuggestionFlow, bind, invoke.
    cbn [calls start]. rewrite Hm. reflexivity.
  - intros model msg Hm.
    unfold Inspiration.generateOutfitInspiration,
      Inspiration.generateOutfitInspirationFlow, bind, invoke.
    cbn [calls start]. rewrite Hm. reflexivity.
  - intros model msg Hm.
    unfold Visualization.generateOutfitVisualization,
      Visualization.generateOutfitVisualizationFlow, bind, invoke.
    cbn [calls start]. rewrite Hm. reflexivity.
  - intros model textOutput msg H0 Hc H1.
    unfold Suggestion.generateOutfitSuggestion,
      Suggestion.generateOutfitSuggestionFlow, bind, invoke.
    cbn [calls start]. rewrite H0, Hc. cbn [calls]. rewrite H1. reflexivity.
Qed.

Lemma only_the_analysis_flows_retry_witness :
  isRetryableError (classified "rate limit") = true
  /\ ((2 <= calls (snd (Clothing.analyzeClothingItem
                          (fun _ => Fails "rate limit") someItemPhoto)))%nat
      /\ hd_error (delays (log (snd (Clothing.analyzeClothingItem
                                       (fun _ => Fails "rate limit")
                                       someItemPhoto))))
         = Some 2000%Z)
  /\ Inspiration.generateOutfitInspiration (fun _ => Fails "rate limit")
       someWardrobe
     = (Err (Error "rate limit"),
        mkWorld 1 [Prompted (Inspiration.inputValue someWardrobe)]).
Proof.
  split; [reflexivity|].
  destruct (only_the_analysis_flows_retry someItemPhoto somePhoto
              someOutfitRequest someWardrobe linkedJacketRequest)
    as (Hc & _ & _ & Hi & _).
  split.
  - apply (Hc (fun _ => Fails "rate limit") "rate limit"); reflexivity.
  - apply (Hi (fun _ => Fails "rate limit") "rate limit"); reflexivity.
Defined.


(** * Further properties of the code *)

(** ** The retry loop at every attempt *)

Lemma retryable_lower_classified (msg : string) :
  isRetryableError (toLowerCase msg) = true ->
  isRetryableError (classified msg) = true /\ or_else msg "Onbekende API fout" = msg.
Proof.
  intros H. destruct msg as [|c r]; [discriminate|].
  rewrite classified_nonempty by reflexivity. split; [exact H | reflexivity].
Qed.

Lemma retryable_has_message (msg : string) :
  isRetryableError (classified msg) = true -> or_else msg "Onbekende API fout" = msg.
Proof. destruct msg; [discriminate | reflexivity]. Qed.

Section RetryAtEveryAttempt.

Variable model : nat -> outcome.
Variable input : value.
Variable check : value -> result value.
Variable validationMessage : list ZodIssue -> string.
Variable exhaustedMessage : string -> string.
Variable unexpectedMessage : string.

Let run := loop model input check validationMessage exhaustedMessage.
Let flow := retryingFlow model input check validationMessage exhaustedMessage
              unexpectedMessage.

(** An exception of the checks that is neither a [ZodError] nor retryable
    by its message is thrown again as it is. *)
Lemma loop_check_error (r attempt : nat) (delay : Z) (w : world)
    (raw : value) (e : exn) :
  model (calls w) = Returns raw -> check raw = Err e ->
  (forall errors, e <> ZodError errors) ->
  isRetryableError (classified (messageOf e)) = false ->
  run (S r) attempt delay w = (Err e, called input w).
Proof.
  intros Hm Hc Hz Hn. unfold run. cbn [loop].
  unfold bind, try_catch, attemptBody, bind, invoke, lift, ret, handler.
  rewrite Hm, Hc.
  destruct e as [errors|m|m]; [now destruct (Hz errors) | |];
    cbn [messageOf] in *; fold (classified m); rewrite Hn; reflexivity.
Qed.

Lemma flow_fatal_after (k : nat) (msg : string) :
  (k < maxRetries)%nat -> retryableRun model start k ->
  model k = Fails msg -> isRetryableError (classified msg) = false ->
  flow start = (Err (Error msg), afterRetries input k).
Proof.
  intros Hk Hrun Hm Hc. unfold flow.
  apply (retryingFlow_result _ _ _ _ _ _ start (Err (Error msg))
           (afterRetries input k)).
  rewrite (run_after_retries _ _ _ _ _ k Hk Hrun).
  erewrite loop_fatal; [| exact Hm | exact Hc].
  unfold called, afterRetries. reflexivity.
Qed.

Lemma flow_check_error_after (k : nat) (raw : value) (e : exn) :
  (k < maxRetries)%nat -> retryableRun model start k ->
  model k = Returns raw -> check raw = Err e ->
  (forall errors, e <> ZodError errors) ->
  isRetryableError (classified (messageOf e)) = false ->
  flow start = (Err e, afterRetries input k).
Proof.
  intros Hk Hrun Hm Hc Hz Hn. unfold flow.
  apply (retryingFlow_result _ _ _ _ _ _ start (Err e) (afterRetries input k)).
  rewrite (run_after_retries _ _ _ _ _ k Hk Hrun).
  fold run. erewrite loop_check_error; [| exact Hm | exact Hc | exact Hz | exact Hn].
  unfold called, afterRetries. reflexivity.
Qed.

(** Retryable failures at all the attempts: the last one is wrapped. *)
Lemma flow_exhausted (msg : string) :
  retryableRun model start maxRetries ->
  model (maxRetries - 1)%nat = Fails msg ->
  flow start
  = (Err (Error (exhaustedMessage msg)), afterRetries input (maxRetries - 1)).
Proof.
  intros Hrun Hm. unfold flow.
  assert (Hc : isRetryableError (classified msg) = true).
  { destruct (Hrun (maxRetries - 1)%nat) as (m & Hm' & Hc');
      [unfold maxRetries; lia|].
    cbn [calls start Nat.add] in Hm'. congruence. }
  apply (retryingFlow_result _ _ _ _ _ _ start
           (Err (Error (exhaustedMessage msg)))
           (afterRetries input (maxRetries - 1))).
  rewrite (run_after_retries _ _ _ _ _ (maxRetries - 1));
    [| unfold maxRetries; lia
     | intros j Hj; apply Hrun; unfold maxRetries in *; lia].
  erewrite loop_exhausted; [| exact Hm | exact Hc | reflexivity].
  rewrite (retryable_has_message msg Hc).
  unfold called, afterRetries. reflexivity.
Qed.

End RetryAtEveryAttempt.

Lemma alwaysUnavailable_retryableRun : retryableRun alwaysUnavailable start maxRetries.
Proof.
  intros j Hj. cbn [calls start Nat.add].
  destruct j as [|[|[|j]]]; [| | | unfold maxRetries in Hj; lia];
    eexists; split; reflexivity.
Qed.

Lemma three_failures_retryableRun (model : nat -> outcome) (m0 m1 m2 : string) :
  model 0%nat = Fails m0 -> model 1%nat = Fails m1 -> model 2%nat = Fails m2 ->
  isRetryableError (toLowerCase m0) = true ->
  isRetryableError (toLowerCase m1) = true ->
  isRetryableError (toLowerCase m2) = true ->
  retryableRun model start maxRetries.
Proof.
  intros H0 H1 H2 R0 R1 R2 j Hj. cbn [calls start Nat.add].
  destruct j as [|[|[|j]]]; [exists m0 | exists m1 | exists m2
                            | unfold maxRetries in Hj; lia];
    (split; [assumption | now apply retryable_lower_classified]).
Qed.

(** X1.  In both analysis flows, when all three invocations fail with a
    message that contains a retryable keyword in any letter case, the flow
    stops after the third one, having slept 2000 and 4000, and throws the
    "mislukt na 3 pogingen" error built from the message of the last
    failure. *)
Theorem three_retryable_failures_exhaust
    (model : nat -> outcome) (m0 m1 m2 : string)
    (ci : Clothing.AnalyzeClothingItemInput)
    (pi : Color.PerformColorAnalysisInput) :
  model 0%nat = Fails m0 -> model 1%nat = Fails m1 -> model 2%nat = Fails m2 ->
  isRetryableError (toLowerCase m0) = true ->
  isRetryableError (toLowerCase m1) = true ->
  isRetryableError (toLowerCase m2) = true ->
  Clothing.analyzeClothingItem model ci
  = (Err (Error (Clothing.exhaustedMessage m2)),
     threeAttempts (Clothing.inputValue ci))
  /\ Color.performColorAnalysis model pi
     = (Err (Error (Color.exhaustedMessage m2)),
        threeAttempts (Color.inputValue pi)).
Proof.
  intros H0 H1 H2 R0 R1 R2.
  pose proof (three_failures_retryableRun model m0 m1 m2 H0 H1 H2 R0 R1 R2) as Hrun.
  split; apply (flow_exhausted model _ _ _ _ _ m2 Hrun H2).
Qed.

Lemma three_retryable_failures_exhaust_witness :
  (isRetryableError (toLowerCase "503 Service Unavailable") = true
   /\ isRetryableError
        (toLowerCase "The model is overloaded. Please try again later.") = true
   /\ isRetryableError
        (toLowerCase "Resource has been exhausted (e.g. check quota).") = true)
  /\ Clothing.analyzeClothingItem alwaysUnavailable someItemPhoto
     = (Err (Error (Clothing.exhaustedMessage
                      "Resource has been exhausted (e.g. check quota).")),
        threeAttempts (Clothing.inputValue someItemPhoto))
  /\ Color.performColorAnalysis alwaysUnavailable somePhoto
     = (Err (Error (Color.exhaustedMessage
                      "Resource has been exhausted (e.g. check quota).")),
        threeAttempts (Color.inputValue somePhoto)).
Proof.
  split; [repeat split|].
  apply (three_retryable_failures_exhaust alwaysUnavailable
           "503 Service Unavailable"
           "The model is overloaded. Please try again later."
           "Resource has been exhausted (e.g. check quota)."
           someItemPhoto somePhoto); reflexivity.
Defined.

(** X2.  In both analysis flows, a failure whose message contains no
    retryable keyword is thrown again unwrapped at whichever attempt it
    occurs: after [k] retried failures the flow stops at invocation [k+1]
    and no suspension follows it. *)
Theorem fatal_failure_at_any_attempt
    (model : nat -> outcome) (k : nat) (msg : string)
    (ci : Clothing.AnalyzeClothingItemInput)
    (pi : Color.PerformColorAnalysisInput) :
  (k < maxRetries)%nat -> retryableRun model start k ->
  model k = Fails msg -> isRetryableError (toLowerCase msg) = false ->
  Clothing.analyzeClothingItem model ci
  = (Err (Error msg), afterRetries (Clothing.inputValue ci) k)
  /\ Color.performColorAnalysis model pi
     = (Err (Error msg), afterRetries (Color.inputValue pi) k).
Proof.
  intros Hk Hrun Hm Hn. apply not_retryable_classified in Hn.
  split; apply (flow_fatal_after model _ _ _ _ _ k msg Hk Hrun Hm Hn).
Qed.

Lemma unavailableThenInvalid_retryableRun : retryableRun unavailableThenInvalid start 1.
Proof.
  intros j Hj. exists "503 Service Unavailable".
  destruct j as [|j]; [split; reflexivity | lia].
Qed.

Lemma fatal_failure_at_any_attempt_witness :
  ((1 < maxRetries)%nat
   /\ isRetryableError (toLowerCase "400 Bad Request: invalid argument") = false)
  /\ Clothing.analyzeClothingItem unavailableThenInvalid someItemPhoto
     = (Err (Error "400 Bad Request: invalid argument"),
        mkWorld 2 [Prompted (Clothing.inputValue someItemPhoto); Slept 2000;
                   Prompted (Clothing.inputValue someItemPhoto)])
  /\ Color.performColorAnalysis unavailableThenInvalid somePhoto
     = (Err (Error "400 Bad Request: invalid argument"),
        mkWorld 2 [Prompted (Color.inputValue somePhoto); Slept 2000;
                   Prompted (Color.inputValue somePhoto)]).
Proof.
  assert (H1 : (1 < maxRetries)%nat) by (unfold maxRetries; lia).
  split; [split; [exact H1 | reflexivity]|].
  apply (fatal_failure_at_any_attempt unavailableThenInvalid 1
           "400 Bad Request: invalid argument" someItemPhoto somePhoto H1
           unavailableThenInvalid_retryableRun); reflexivity.
Defined.

(** X3.  In both analysis flows an empty output (null, or any other falsy
    value) is never retried: at whichever attempt the model returns it,
    the flow throws the "output was leeg" error there, with no further
    invocation or suspension. *)
Theorem empty_output_is_not_retried
    (model : nat -> outcome) (k : nat) (raw : value)
    (ci : Clothing.AnalyzeClothingItemInput)
    (pi : Color.PerformColorAnalysisInput) :
  (k < maxRetries)%nat -> retryableRun model start k ->
  model k = Returns raw -> truthy raw = false ->
  Clothing.analyzeClothingItem model ci
  = (Err emptyOutputError, afterRetries (Clothing.inputValue ci) k)
  /\ Color.performColorAnalysis model pi
     = (Err emptyOutputError, afterRetries (Color.inputValue pi) k).
Proof.
  intros Hk Hrun Hm Ht. split.
  - apply (flow_check_error_after model _ _ _ _ _ k raw emptyOutputError Hk Hrun Hm);
      [unfold Clothing.check; now rewrite Ht | discriminate | reflexivity].
  - apply (flow_check_error_after model _ _ _ _ _ k raw emptyOutputError Hk Hrun Hm);
      [unfold Color.check; now rewrite Ht | discriminate | reflexivity].
Qed.

Lemma empty_output_is_not_retried_witness :
  ((1 < maxRetries)%nat /\ truthy VNull = false)
  /\ Clothing.analyzeClothingItem (unavailableOnce VNull) someItemPhoto
     = (Err emptyOutputError,
        mkWorld 2 [Prompted (Clothing.inputValue someItemPhoto); Slept 2000;
                   Prompted (Clothing.inputValue someItemPhoto)])
  /\ Color.performColorAnalysis (unavailableOnce VNull) somePhoto
     = (Err emptyOutputError,
        mkWorld 2 [Prompted (Color.inputValue somePhoto); Slept 2000;
                   Prompted (Color.inputValue somePhoto)]).
Proof.
  assert (H1 : (1 < maxRetries)%nat) by (unfold maxRetries; lia).
  split; [split; [exact H1 | reflexivity]|].
  apply (empty_output_is_not_retried (unavailableOnce VNull) 1 VNull
           someItemPhoto somePhoto H1 (unavailableOnce_retryableRun VNull));
    reflexivity.
Defined.

(** X4.  In both analysis flows, a conforming output is returned at
    whichever attempt the model produces it: after [k] retried failures the
    flow returns at invocation [k+1]; at the first attempt that is one
    invocation and no suspension.  The clothing analysis returns the output
    itself, the colour analysis the output as post-processed. *)
Theorem conforming_output_at_any_attempt :
  (forall (model : nat -> outcome) (k : nat) (out : value)
          (ci : Clothing.AnalyzeClothingItemInput),
      (k < maxRetries)%nat -> retryableRun model start k ->
      model k = Returns out ->
      Zod.issues Clothing.AnalyzeClothingItemOutputSchema [] out = [] ->
      Clothing.analyzeClothingItem model ci
      = (Ok out, afterRetries (Clothing.inputValue ci) k))
  /\ (forall (model : nat -> outcome) (k : nat) (out : value)
             (pi : Color.PerformColorAnalysisInput),
         (k < maxRetries)%nat -> retryableRun model start k ->
         model k = Returns out -> conforms out ->
         exists res,
           Color.postProcess out = Ok res
           /\ Color.performColorAnalysis model pi
              = (Ok res, afterRetries (Color.inputValue pi) k)).
Proof.
  split.
  - intros model k out ci Hk Hrun Hm Hv.
    apply (flow_returns_after model _ _ _ _ _ k out out Hk Hrun Hm).
    now apply clothing_check_conforming.
  - intros model k out pi Hk Hrun Hm Hv.
    destruct (color_check_conforming out Hv) as (res & Hp & Hc & _).
    exists res. split; [exact Hp|].
    apply (flow_returns_after model _ _ _ _ _ k out res Hk Hrun Hm Hc).
Qed.

Lemma no_failures_retryableRun (model : nat -> outcome) : retryableRun model start 0.
Proof. intros j Hj. lia. Qed.

Lemma conforming_output_at_any_attempt_witness :
  ((0 < maxRetries)%nat
   /\ Zod.issues Clothing.AnalyzeClothingItemOutputSchema [] tshirtAnalysis = []
   /\ conforms lenteAnalysis)
  /\ Clothing.analyzeClothingItem (fun _ => Returns tshirtAnalysis) someItemPhoto
     = (Ok tshirtAnalysis, oneAttempt (Clothing.inputValue someItemPhoto))
  /\ exists res,
       Color.postProcess lenteAnalysis = Ok res
       /\ Color.performColorAnalysis (fun _ => Returns lenteAnalysis) somePhoto
          = (Ok res, oneAttempt (Color.inputValue somePhoto)).
Proof.
  assert (H0 : (0 < maxRetries)%nat) by (unfold maxRetries; lia).
  split; [split; [exact H0 | split; reflexivity]|]. split.
  - apply (proj1 conforming_output_at_any_attempt
             (fun _ => Returns tshirtAnalysis) 0 tshirtAnalysis someItemPhoto H0
             (no_failures_retryableRun _)); reflexivity.
  - apply (proj2 conforming_output_at_any_attempt
             (fun _ => Returns lenteAnalysis) 0 lenteAnalysis somePhoto H0
             (no_failures_retryableRun _)); reflexivity.
Defined.

Lemma parse_ok (s : Zod.schema) (v : value) :
  Zod.parse s v = Ok tt -> Zod.issues s [] v = [].
Proof. unfold Zod.parse. destruct (Zod.issues s [] v); [reflexivity | discriminate]. Qed.

Lemma clothing_check_ok (raw res : value) :
  Clothing.check raw = Ok res ->
  res = raw /\ truthy raw = true
  /\ Zod.issues Clothing.AnalyzeClothingItemOutputSchema [] raw = [].
Proof.
  unfold Clothing.check. destruct (truthy raw); cbn [negb]; [|discriminate].
  destruct (Zod.parse _ raw) as [[]|e] eqn:E; cbn [bindR]; [|discriminate].
  intros H. apply Ok_inj in H. apply parse_ok in E. auto.
Qed.

Lemma color_check_ok (raw res : value) :
  Color.check raw = Ok res ->
  truthy raw = true /\ Color.postProcess raw = Ok res /\ conforms res.
Proof.
  unfold Color.check. destruct (truthy raw); cbn [negb]; [|discriminate].
  destruct (Color.postProcess raw) as [o|e]; cbn [bindR]; [|discriminate].
  destruct (Zod.parse _ o) as [[]|e] eqn:E; cbn [bindR]; [|discriminate].
  intros H. apply Ok_inj in H. subst o. apply parse_ok in E. auto.
Qed.

(** X5.  Whatever the model answers, a result that an analysis flow
    returns conforms to the output schema of that flow and stems from the
    output of the last invocation: the clothing analysis returns that
    output itself, the colour analysis its post-processed form. *)
Theorem returned_results_conform
    (model : nat -> outcome) (res : value) (w : world) :
  (forall ci, Clothing.analyzeClothingItem model ci = (Ok res, w) ->
     model (pred (calls w)) = Returns res
     /\ Zod.issues Clothing.AnalyzeClothingItemOutputSchema [] res = [])
  /\ (forall pi, Color.performColorAnalysis model pi = (Ok res, w) ->
        conforms res
        /\ exists raw, model (pred (calls w)) = Returns raw
                       /\ Color.postProcess raw = Ok res).
Proof.
  split.
  - intros ci H.
    destruct (flow_result_origin _ _ _ _ _ _ _ _ H) as (raw & Hm & Hc).
    apply clothing_check_ok in Hc as (-> & _ & Hv). auto.
  - intros pi H.
    destruct (flow_result_origin _ _ _ _ _ _ _ _ H) as (raw & Hm & Hc).
    apply color_check_ok in Hc as (_ & Hp & Hv). split; [exact Hv|].
    exists raw. auto.
Qed.

Lemma returned_results_conform_witness :
  (Clothing.analyzeClothingItem (rateLimitedTwice tshirtAnalysis) someItemPhoto
   = (Ok tshirtAnalysis, threeAttempts (Clothing.inputValue someItemPhoto))
   /\ Color.performColorAnalysis (fun _ => Returns strayUndetermined) somePhoto
      = (Ok strayUndeterminedResult, oneAttempt (Color.inputValue somePhoto)))
  /\ (rateLimitedTwice tshirtAnalysis 2%nat = Returns tshirtAnalysis
      /\ Zod.issues Clothing.AnalyzeClothingItemOutputSchema [] tshirtAnalysis = [])
  /\ conforms strayUndeterminedResult.
Proof.
  split; [split; reflexivity|]. split.
  - apply (proj1 (returned_results_conform (rateLimitedTwice tshirtAnalysis)
                    tshirtAnalysis
                    (threeAttempts (Clothing.inputValue someItemPhoto)))
             someItemPhoto).
    reflexivity.
  - apply (proj2 (returned_results_conform (fun _ => Returns strayUndetermined)
                    strayUndeterminedResult
                    (oneAttempt (Color.inputValue somePhoto)))
             somePhoto).
    reflexivity.
Defined.

Lemma envelope_delays (w : world) :
  withinEnvelope w ->
  (length (delays (log w)) <= 2)%nat /\ (0 <= totalDelay (log w) <= 6000)%Z.
Proof.
  unfold withinEnvelope, totalDelay. intros (Hn & _ & Hd). rewrite Hd.
  unfold maxRetries in Hn.
  destruct (invocations (log w)) as [|[|[|[|n]]]]; try lia;
    cbn; split; lia.
Qed.

(** X6.  Whatever the model answers, an analysis flow suspends at most
    twice and for at most 6000 in total. *)
Theorem suspensions_are_bounded
    (model : nat -> outcome)
    (ci : Clothing.AnalyzeClothingItemInput)
    (pi : Color.PerformColorAnalysisInput) :
  ((length (delays (log (snd (Clothing.analyzeClothingItem model ci)))) <= 2)%nat
   /\ (0 <= totalDelay (log (snd (Clothing.analyzeClothingItem model ci)))
       <= 6000)%Z)
  /\ ((length (delays (log (snd (Color.performColorAnalysis model pi)))) <= 2)%nat
      /\ (0 <= totalDelay (log (snd (Color.performColorAnalysis model pi)))
          <= 6000)%Z).
Proof. split; apply envelope_delays, flow_envelope. Qed.

Lemma mentions_rate_limit_retryable (s : string) :
  nonempty s = true -> includes (toLowerCase s) "rate limit" = true ->
  isRetryableError (classified s) = true.
Proof.
  intros Hne H. rewrite classified_nonempty by exact Hne.
  unfold isRetryableError. rewrite H.
  repeat (rewrite ?orb_true_l, ?orb_true_r). reflexivity.
Qed.

(** X7.  The error an analysis flow throws when its attempts are
    exhausted is itself classified as retryable, whatever the last failure
    was: its text contains "rate limits". *)
Theorem exhausted_error_is_retryable (last : string) :
  isRetryableError (classified (Clothing.exhaustedMessage last)) = true
  /\ isRetryableError (classified (Color.exhaustedMessage last)) = true.
Proof.
  split; apply mentions_rate_limit_retryable; reflexivity.
Qed.


(** ** The post-processing of the colour analysis *)

Lemma lowerCaseOf_truthy_error (expr : string) (v : value) (e : exn) :
  truthy v = true -> Color.lowerCaseOf expr v = Err e ->
  e = TypeError (expr ++ ".toLowerCase is not a function").
Proof.
  destruct v; cbn [truthy Color.lowerCaseOf]; try discriminate;
    intros _ [= <-]; reflexivity.
Qed.

Lemma lowerCaseOf_error (expr : string) (v : value) (e : exn) :
  Color.lowerCaseOf expr v = Err e ->
  e = TypeError "Cannot read properties of undefined (reading 'toLowerCase')"
  \/ e = TypeError "Cannot read properties of null (reading 'toLowerCase')"
  \/ e = TypeError (expr ++ ".toLowerCase is not a function").
Proof.
  destruct v; cbn [Color.lowerCaseOf]; try discriminate; intros [= <-]; auto.
Qed.

Lemma someKeyword_error (expr : string) (v : value) (e : exn) :
  Color.someKeyword expr v = Err e -> Color.lowerCaseOf expr v = Err e.
Proof.
  unfold Color.someKeyword. destruct (Color.lowerCaseOf expr v); cbn [bindR];
    [discriminate | intros [= ->]; reflexivity].
Qed.

Lemma mentionsSentinel_error (expr : string) (v : value) (e : exn) :
  Color.mentionsSentinel expr v = Err e -> Color.lowerCaseOf expr v = Err e.
Proof.
  unfold Color.mentionsSentinel. destruct (Color.lowerCaseOf expr v); cbn [bindR];
    [discriminate | intros [= ->]; reflexivity].
Qed.

Lemma guard_error (guard : value) (tested : result bool) (e : exn) :
  (if negb (truthy guard) then Ok true
   else found <- tested ;; Ok (negb found)) = Err e ->
  truthy guard = true /\ tested = Err e.
Proof.
  destruct (truthy guard); cbn [negb]; [|discriminate].
  destruct tested; cbn [bindR]; [discriminate | intros [= <-]; auto].
Qed.

Lemma readLength_error (v : value) (e : exn) :
  Color.readLength v = Err e ->
  e = TypeError "Cannot read properties of undefined (reading 'length')"
  \/ e = TypeError "Cannot read properties of null (reading 'length')".
Proof. destruct v; cbn; try discriminate; intros [= <-]; auto. Qed.

Ltac read_fields :=
  repeat (rewrite get_assign_same || rewrite get_assign_other by reflexivity).

Ltac known_error :=
  subst; unfold postProcessErrors; cbn [In append]; auto 12.

Lemma postProcess_error (raw : value) (e : exn) :
  Color.postProcess raw = Err e -> In e postProcessErrors.
Proof.
  unfold Color.postProcess.
  destruct (Color.isUnanalyzable raw) as [[|]|e0] eqn:Hun; cbn [bindR].
  - assert (exists props, raw = VObj props) as [props ->].
    { apply ColorFacts.isUnanalyzable_true in Hun.
      apply ColorFacts.hasKeyword_truthy in Hun.
      now apply truthy_get_object in Hun. }
    cbn [set]. cbv zeta. read_fields.
    destruct (if negb (truthy (get (VObj props) "analysisDescription")) then _ else _)
      as [b1|e1] eqn:E1; cbn [bindR].
    2:{ intros [= <-]. apply guard_error in E1 as [Ht E1].
        apply someKeyword_error, (lowerCaseOf_truthy_error _ _ _ Ht) in E1.
        known_error. }
    destruct b1; cbn [set]; read_fields;
      (destruct (if negb (truthy (get (VObj props) "characteristics")) then _ else _)
         as [b2|e2] eqn:E2; cbn [bindR];
       [| intros [= <-]; apply guard_error in E2 as [Ht E2];
          apply mentionsSentinel_error, lowerCaseOf_error in E2;
          destruct E2 as [H|[H|H]]; known_error ]);
      destruct b2; cbn [set]; read_fields;
      (destruct (if negb (truthy (get (VObj props) "paletteDescription")) then _ else _)
         as [b3|e3] eqn:E3; cbn [bindR];
       [ discriminate
       | intros [= <-]; apply guard_error in E3 as [Ht E3];
         apply mentionsSentinel_error, (lowerCaseOf_truthy_error _ _ _ Ht) in E3;
         known_error ]).
  - destruct (Color.readLength (get raw "recommendedColors")) eqn:E1; cbn [bindR].
    + destruct (Color.readLength (get raw "avoidColors")) eqn:E2; cbn [bindR];
        [discriminate|].
      intros [= <-]. destruct (readLength_error _ _ E2) as [H|H]; known_error.
    + intros [= <-]. destruct (readLength_error _ _ E1) as [H|H]; known_error.
  - intros [= <-]. unfold Color.isUnanalyzable in Hun.
    destruct (truthy (get raw "seasonType")) eqn:Ht; [|discriminate].
    apply someKeyword_error, (lowerCaseOf_truthy_error _ _ _ Ht) in Hun.
    known_error.
Qed.

Lemma postProcessErrors_fatal (e : exn) :
  In e postProcessErrors ->
  (forall errors, e <> ZodError errors)
  /\ isRetryableError (classified (messageOf e)) = false.
Proof.
  unfold postProcessErrors. cbn [In]. intros H.
  repeat (destruct H as [<-|H]; [split; [discriminate | reflexivity]|]).
  destruct H.
Qed.

(** X8.  The post-processing of the colour analysis throws nothing but the
    eight [TypeError]s of a method or property read off a value that lacks
    it, and the flow never retries them: at whichever attempt the output
    makes the post-processing throw, the flow throws that very exception,
    with no further invocation or suspension. *)
Theorem postProcess_exception_is_not_retried
    (model : nat -> outcome) (k : nat) (raw : value) (e : exn)
    (pi : Color.PerformColorAnalysisInput) :
  (k < maxRetries)%nat -> retryableRun model start k ->
  model k = Returns raw -> truthy raw = true ->
  Color.postProcess raw = Err e ->
  In e postProcessErrors
  /\ Color.performColorAnalysis model pi
     = (Err e, afterRetries (Color.inputValue pi) k).
Proof.
  intros Hk Hrun Hm Ht Hp.
  pose proof (postProcess_error raw e Hp) as Hin.
  split; [exact Hin|].
  destruct (postProcessErrors_fatal e Hin) as [Hz Hn].
  apply (flow_check_error_after model _ _ _ _ _ k raw e Hk Hrun Hm);
    [| exact Hz | exact Hn].
  unfold Color.check. rewrite Ht, Hp. reflexivity.
Qed.

Lemma postProcess_exception_is_not_retried_witness :
  ((1 < maxRetries)%nat /\ truthy numericSeason = true
   /\ Color.postProcess numericSeason
      = Err (TypeError "output.seasonType.toLowerCase is not a function"))
  /\ In (TypeError "output.seasonType.toLowerCase is not a function")
        postProcessErrors
  /\ Color.performColorAnalysis (unavailableOnce numericSeason) somePhoto
     = (Err (TypeError "output.seasonType.toLowerCase is not a function"),
        afterRetries (Color.inputValue somePhoto) 1).
Proof.
  assert (H1 : (1 < maxRetries)%nat) by (unfold maxRetries; lia).
  split; [split; [exact H1 | split; reflexivity]|].
  apply (postProcess_exception_is_not_retried (unavailableOnce numericSeason) 1
           numericSeason
           (TypeError "output.seasonType.toLowerCase is not a function")
           somePhoto H1 (unavailableOnce_retryableRun numericSeason));
    reflexivity.
Defined.

(** X9.  A result the colour analysis has returned is a fixed point of the
    flow: the post-processing leaves it as it is, and a model that answers
    with it gets it back unchanged after one invocation. *)
Theorem returned_result_is_a_fixed_point
    (model : nat -> outcome) (pi pi' : Color.PerformColorAnalysisInput)
    (res : value) (w : world) :
  Color.performColorAnalysis model pi = (Ok res, w) ->
  Color.postProcess res = Ok res
  /\ Color.performColorAnalysis (fun _ => Returns res) pi'
     = (Ok res, oneAttempt (Color.inputValue pi')).
Proof.
  intros H.
  destruct (flow_result_origin _ _ _ _ _ _ _ _ H) as (raw & _ & Hc).
  apply color_check_ok in Hc as (_ & Hp & Hv).
  pose proof (ColorFacts.postProcess_idempotent raw res Hp) as Hi.
  split; [exact Hi|].
  apply (flow_returns_after (fun _ => Returns res) _ _ _ _ _ 0 res res);
    [unfold maxRetries; lia | apply no_failures_retryableRun | reflexivity |].
  unfold Color.check. destruct (ColorFacts.conforms_object res Hv) as [props ->].
  cbn [truthy negb]. rewrite Hi. cbn [bindR]. unfold Zod.parse.
  unfold conforms in Hv. rewrite Hv. reflexivity.
Qed.

Lemma returned_result_is_a_fixed_point_witness :
  Color.performColorAnalysis (fun _ => Returns strayUndetermined) somePhoto
  = (Ok strayUndeterminedResult, oneAttempt (Color.inputValue somePhoto))
  /\ Color.postProcess strayUndeterminedResult = Ok strayUndeterminedResult
  /\ Color.performColorAnalysis (fun _ => Returns strayUndeterminedResult) somePhoto
     = (Ok strayUndeterminedResult, oneAttempt (Color.inputValue somePhoto)).
Proof.
  split; [reflexivity|].
  apply (returned_result_is_a_fixed_point (fun _ => Returns strayUndetermined)
           somePhoto somePhoto strayUndeterminedResult
           (oneAttempt (Color.inputValue somePhoto))).
  reflexivity.
Defined.

Lemma get_assign_frame (k k' : string) (x : value) (props : list (string * value)) :
  k <> k' -> get (VObj (assign k x props)) k' = get (VObj props) k'.
Proof. intros H. apply get_assign_other. now apply String.eqb_neq. Qed.

(** X10.  The post-processing only ever assigns to [recommendedColors],
    [avoidColors], [analysisDescription], [characteristics] and
    [paletteDescription]: every other property of the output, the season
    among them, reads the same afterwards; and an output with a determined
    season is passed on untouched as a whole. *)
Theorem postProcess_touches_five_fields (raw out : value) :
  Color.postProcess raw = Ok out ->
  (forall k, ~ In k postProcessedFields -> get out k = get raw k)
  /\ (Color.isUnanalyzable raw = Ok false -> out = raw).
Proof.
  intros Hp. split; [|intros Hun; exact (ColorFacts.postProcess_determined _ _ Hun Hp)].
  intros k Hk. unfold postProcessedFields in Hk. cbn [In] in Hk.
  assert (H1 : "recommendedColors" <> k) by tauto.
  assert (H2 : "avoidColors" <> k) by tauto.
  assert (H3 : "analysisDescription" <> k) by tauto.
  assert (H4 : "characteristics" <> k) by tauto.
  assert (H5 : "paletteDescription" <> k) by tauto.
  clear Hk. revert Hp. unfold Color.postProcess.
  destruct (Color.isUnanalyzable raw) as [[|]|e0] eqn:Hun; cbn [bindR];
    [| | discriminate].
  - assert (exists props, raw = VObj props) as [props ->].
    { apply ColorFacts.isUnanalyzable_true in Hun.
      apply ColorFacts.hasKeyword_truthy in Hun.
      now apply truthy_get_object in Hun. }
    cbn [set]. cbv zeta.
    destruct (if negb (truthy _) then _ else _) as [b1|e1]; cbn [bindR];
      [|discriminate].
    destruct b1; cbn [set];
      (destruct (if negb (truthy _) then _ else _) as [b2|e2]; cbn [bindR];
       [|discriminate]);
      destruct b2; cbn [set];
      (destruct (if negb (truthy _) then _ else _) as [b3|e3]; cbn [bindR];
       [|discriminate]);
      destruct b3; cbn [set]; intros H; apply Ok_inj in H; subst out;
      repeat (rewrite get_assign_frame by assumption); reflexivity.
  - destruct (Color.readLength (get raw "recommendedColors")); cbn [bindR];
      [|discriminate].
    destruct (Color.readLength (get raw "avoidColors")); cbn [bindR];
      [|discriminate].
    intros H; apply Ok_inj in H; now subst out.
Qed.

Lemma postProcess_touches_five_fields_witness :
  (Color.postProcess bareVerdict
   = Ok (VObj [("seasonType", VStr "Kan niet analyseren: geen gezicht gevonden");
               ("recommendedColors", VArr []);
               ("confidence", VNum 0);
               ("avoidColors", VArr []);
               ("analysisDescription", VStr Color.fallbackDescription);
               ("characteristics", sentinelCharacteristics);
               ("paletteDescription", VStr Color.fallbackPalette)])
   /\ ~ In "confidence" postProcessedFields)
  /\ get (VObj [("seasonType", VStr "Kan niet analyseren: geen gezicht gevonden");
                ("recommendedColors", VArr []);
                ("confidence", VNum 0);
                ("avoidColors", VArr []);
                ("analysisDescription", VStr Color.fallbackDescription);
                ("characteristics", sentinelCharacteristics);
                ("paletteDescription", VStr Color.fallbackPalette)])
       "confidence"
     = get bareVerdict "confidence".
Proof.
  assert (Hn : ~ In "confidence" postProcessedFields).
  { unfold postProcessedFields. cbn [In].
    intros [H|[H|[H|[H|[H|[]]]]]]; discriminate H. }
  split; [split; [reflexivity | exact Hn]|].
  apply (proj1 (postProcess_touches_five_fields bareVerdict _ eq_refl)
           "confidence" Hn).
Defined.

Lemma fallbackDescription_has_no_keyword :
  ~ hasKeyword (VStr Color.fallbackDescription).
Proof.
  intros (s & kw & Hs & Hin & H). injection Hs as <-.
  unfold Color.unanalyzableSeasonKeywords in Hin. cbn [In] in Hin.
  repeat (destruct Hin as [<-|Hin]; [vm_compute in H; discriminate H|]).
  destruct Hin.
Qed.

(** X11.  When the colour analysis returns a result for an output whose
    season matches an undetermined-keyword, the season is the raw one, and
    the explanation is the raw one if that bears a keyword and the fixed
    fallback text otherwise; the fallback text bears no keyword itself. *)
Theorem undetermined_explanation
    (model : nat -> outcome) (pi : Color.PerformColorAnalysisInput)
    (raw res : value) (w : world) :
  Color.performColorAnalysis model pi = (Ok res, w) ->
  model (pred (calls w)) = Returns raw ->
  hasKeyword (get raw "seasonType") ->
  get res "seasonType" = get raw "seasonType"
  /\ (hasKeyword (get raw "analysisDescription") ->
      get res "analysisDescription" = get raw "analysisDescription")
  /\ (~ hasKeyword (get raw "analysisDescription") ->
      get res "analysisDescription" = VStr Color.fallbackDescription)
  /\ ~ hasKeyword (VStr Color.fallbackDescription).
Proof.
  intros Hflow Hm Hseason.
  destruct (flow_result_origin _ _ _ _ _ _ _ _ Hflow) as (raw' & Hm' & Hc).
  assert (raw' = raw) as -> by congruence.
  apply color_check_postProcess in Hc.
  apply ColorFacts.isUnanalyzable_true in Hseason.
  destruct (ColorFacts.postProcess_unanalyzable raw res Hseason Hc)
    as (_ & Hs & _ & _ & Hd & _ & _).
  split; [exact Hs|]. split; [|split].
  - intros Hk. destruct Hd as [[_ E]|[Hn _]]; [exact E | contradiction].
  - intros Hn. destruct Hd as [[Hk _]|[_ E]]; [contradiction | exact E].
  - exact fallbackDescription_has_no_keyword.
Qed.

Lemma undetermined_explanation_witness :
  (Color.performColorAnalysis (fun _ => Returns strayUndetermined) somePhoto
   = (Ok strayUndeterminedResult, oneAttempt (Color.inputValue somePhoto))
   /\ hasKeyword (get strayUndetermined "seasonType"))
  /\ get strayUndeterminedResult "seasonType" = get strayUndetermined "seasonType"
  /\ (hasKeyword (get strayUndetermined "analysisDescription") ->
      get strayUndeterminedResult "analysisDescription"
      = get strayUndetermined "analysisDescription")
  /\ (~ hasKeyword (get strayUndetermined "analysisDescription") ->
      get strayUndeterminedResult "analysisDescription"
      = VStr Color.fallbackDescription)
  /\ ~ hasKeyword (VStr Color.fallbackDescription).
Proof.
  assert (Hk : hasKeyword (get strayUndetermined "seasonType")).
  { exists "Niet te bepalen", "niet te bepalen".
    split; [reflexivity|]. split; [left; reflexivity | reflexivity]. }
  split; [split; [reflexivity | exact Hk]|].
  apply (undetermined_explanation (fun _ => Returns strayUndetermined)
           somePhoto strayUndetermined strayUndeterminedResult
           (oneAttempt (Color.inputValue somePhoto)));
    [reflexivity | reflexivity | exact Hk].
Defined.

Lemma postProcess_bare (raw : value) :
  Color.isUnanalyzable raw = Ok true ->
  truthy (get raw "analysisDescription") = false ->
  truthy (get raw "characteristics") = false ->
  truthy (get raw "paletteDescription") = false ->
  exists out, Color.postProcess raw = Ok out.
Proof.
  intros Hun Hd Hc Hp.
  assert (exists props, raw = VObj props) as [props ->].
  { apply ColorFacts.isUnanalyzable_true in Hun.
    apply ColorFacts.hasKeyword_truthy in Hun.
    now apply truthy_get_object in Hun. }
  unfold Color.postProcess. rewrite Hun. cbn [bindR set]. cbv zeta.
  read_fields. rewrite Hd. cbn [negb bindR set]. read_fields.
  rewrite Hc. cbn [negb bindR set]. read_fields.
  rewrite Hp. cbn [negb bindR set]. eexists; reflexivity.
Qed.

(** X12.  An output that carries only an undetermined verdict is completed
    instead of rejected: when the season matches a keyword and the
    explanation, the characteristics and the palette description are
    missing (or otherwise falsy), the colour analysis returns, after the
    one invocation, a result with the raw season, empty colour lists, the
    fallback explanation, sentinel characteristics and the fixed palette
    sentence, whatever the output held as colour lists. *)
Theorem bare_undetermined_verdict_is_completed
    (model : nat -> outcome) (pi : Color.PerformColorAnalysisInput)
    (raw : value) :
  model 0%nat = Returns raw ->
  hasKeyword (get raw "seasonType") ->
  truthy (get raw "analysisDescription") = false ->
  truthy (get raw "characteristics") = false ->
  truthy (get raw "paletteDescription") = false ->
  exists res,
    Color.performColorAnalysis model pi
    = (Ok res, oneAttempt (Color.inputValue pi))
    /\ get res "seasonType" = get raw "seasonType"
    /\ get res "recommendedColors" = VArr []
    /\ get res "avoidColors" = VArr []
    /\ get res "analysisDescription" = VStr Color.fallbackDescription
    /\ get res "characteristics" = sentinelCharacteristics
    /\ get res "paletteDescription" = VStr Color.fallbackPalette.
Proof.
  intros Hm Hseason Hd Hc Hp.
  pose proof Hseason as Hun. apply ColorFacts.isUnanalyzable_true in Hun.
  destruct (postProcess_bare raw Hun Hd Hc Hp) as [res Hres].
  destruct (ColorFacts.postProcess_unanalyzable raw res Hun Hres)
    as ([props ->] & Es & Erc & Eac & Ed & Ec & Ep).
  assert (Ed' : get (VObj props) "analysisDescription" = VStr Color.fallbackDescription).
  { destruct Ed as [[Hk _]|[_ E]]; [|exact E].
    apply ColorFacts.hasKeyword_truthy in Hk. congruence. }
  assert (Ec' : get (VObj props) "characteristics" = sentinelCharacteristics).
  { destruct Ec as [[Hk _]|[_ E]]; [|exact E].
    apply ColorFacts.mentions_object in Hk. congruence. }
  assert (Ep' : get (VObj props) "paletteDescription" = VStr Color.fallbackPalette).
  { destruct Ep as [[Hk _]|[_ E]]; [|exact E].
    apply ColorFacts.mentions_truthy in Hk. congruence. }
  exists (VObj props). split; [|auto 7].
  assert (Hconf : conforms (VObj props)).
  { apply ColorFacts.conforms_fields. cbv zeta.
    rewrite Es, Erc, Eac, Ed', Ec', Ep'.
    destruct Hseason as (s & kw & Hs & _). rewrite Hs.
    repeat split; try reflexivity; eexists; reflexivity. }
  destruct (truthy_get_object raw "seasonType"
              (ColorFacts.hasKeyword_truthy _ Hseason)) as [rprops ->].
  apply (flow_returns_after model _ _ _ _ _ 0 (VObj rprops) (VObj props));
    [unfold maxRetries; lia | apply no_failures_retryableRun | exact Hm |].
  unfold Color.check. cbn [truthy negb]. rewrite Hres. cbn [bindR].
  unfold Zod.parse. unfold conforms in Hconf. rewrite Hconf. reflexivity.
Qed.

Lemma bare_undetermined_verdict_is_completed_witness :
  hasKeyword (get bareVerdict "seasonType")
  /\ exists res,
       Color.performColorAnalysis (fun _ => Returns bareVerdict) somePhoto
       = (Ok res, oneAttempt (Color.inputValue somePhoto))
       /\ get res "seasonType" = get bareVerdict "seasonType"
       /\ get res "recommendedColors" = VArr []
       /\ get res "avoidColors" = VArr []
       /\ get res "analysisDescription" = VStr Color.fallbackDescription
       /\ get res "characteristics" = sentinelCharacteristics
       /\ get res "paletteDescription" = VStr Color.fallbackPalette.
Proof.
  assert (Hk : hasKeyword (get bareVerdict "seasonType")).
  { exists "Kan niet analyseren: geen gezicht gevonden", "kan niet analyseren".
    split; [reflexivity|]. split; [right; right; left; reflexivity | reflexivity]. }
  split; [exact Hk|].
  apply (bare_undetermined_verdict_is_completed (fun _ => Returns bareVerdict)
           somePhoto bareVerdict); [reflexivity | exact Hk | reflexivity ..].
Defined.


(** ** The schemas *)

Lemma isHexDigit_lower (c : ascii) :
  Color.isHexDigit (lower_ascii c) = Color.isHexDigit c.
Proof. destruct c as [[] [] [] [] [] [] [] []]; reflexivity. Qed.

Lemma allHex_toLowerCase (s : string) :
  Color.allHex (toLowerCase s) = Color.allHex s.
Proof.
  induction s as [|c r IH]; [reflexivity|].
  cbn [toLowerCase Color.allHex]. now rewrite isHexDigit_lower, IH.
Qed.

Lemma length_toLowerCase (s : string) :
  String.length (toLowerCase s) = String.length s.
Proof. induction s as [|c r IH]; [reflexivity|]. cbn. now rewrite IH. Qed.

(** X13.  The pattern of a colour code accepts a string exactly as it
    accepts its lower-cased form, and only strings of seven characters
    that begin with "#". *)
Theorem hex_pattern_ignores_case (s : string) :
  Color.hexPattern (toLowerCase s) = Color.hexPattern s
  /\ (Color.hexPattern s = true ->
      String.length s = 7%nat /\ startsWith s "#" = true).
Proof.
  split.
  - destruct s as [|c r]; [reflexivity|].
    destruct c as [[] [] [] [] [] [] [] []]; try reflexivity.
    cbn [toLowerCase]. change (lower_ascii "#") with "#"%char.
    unfold Color.hexPattern.
    now rewrite length_toLowerCase, allHex_toLowerCase.
  - destruct s as [|c r]; [discriminate|].
    destruct c as [[] [] [] [] [] [] [] []]; try discriminate.
    unfold Color.hexPattern. intros H. apply andb_true_iff in H as [H _].
    apply Nat.eqb_eq in H. cbn [String.length]. rewrite H.
    split; [reflexivity|]. unfold startsWith. cbn.
    destruct r; reflexivity.
Qed.

Lemma hex_pattern_ignores_case_witness :
  Color.hexPattern "#FF7F50" = true
  /\ String.length "#FF7F50" = 7%nat /\ startsWith "#FF7F50" "#" = true.
Proof.
  split; [reflexivity|].
  apply (proj2 (hex_pattern_ignores_case "#FF7F50")). reflexivity.
Defined.

Lemma clothing_issues_assign (props : list (string * value)) (k : string) (x : value) :
  ~ In k clothingFields ->
  Zod.issues Clothing.AnalyzeClothingItemOutputSchema [] (VObj (assign k x props))
  = Zod.issues Clothing.AnalyzeClothingItemOutputSchema [] (VObj props).
Proof.
  unfold clothingFields. cbn [In]. intros Hk.
  unfold Clothing.AnalyzeClothingItemOutputSchema. cbn [Zod.issues].
  rewrite !get_assign_frame by (intros E; apply Hk; rewrite E; tauto).
  reflexivity.
Qed.

Lemma color_issues_assign (props : list (string * value)) (k : string) (x : value) :
  ~ In k colorFields ->
  Zod.issues Color.PerformColorAnalysisOutputSchema [] (VObj (assign k x props))
  = Zod.issues Color.PerformColorAnalysisOutputSchema [] (VObj props).
Proof.
  unfold colorFields. cbn [In]. intros Hk.
  rewrite !ColorFacts.issues_object. cbn [flat_map fst snd].
  rewrite !get_assign_frame by (intros E; apply Hk; rewrite E; tauto).
  reflexivity.
Qed.

(** X14.  A property the schema does not name is neither rejected nor
    stripped: when a conforming output is given one more property, the
    clothing analysis returns it with that property, and so does the
    colour analysis for a determined season. *)
Theorem unknown_property_is_kept :
  (forall (model : nat -> outcome) (ci : Clothing.AnalyzeClothingItemInput)
          (props : list (string * value)) (k : string) (x : value),
      Zod.issues Clothing.AnalyzeClothingItemOutputSchema [] (VObj props) = [] ->
      ~ In k clothingFields ->
      model 0%nat = Returns (set (VObj props) k x) ->
      Clothing.analyzeClothingItem model ci
      = (Ok (set (VObj props) k x), oneAttempt (Clothing.inputValue ci)))
  /\ (forall (model : nat -> outcome) (pi : Color.PerformColorAnalysisInput)
             (props : list (string * value)) (k : string) (x : value),
         conforms (VObj props) ->
         Color.isUnanalyzable (VObj props) = Ok false ->
         ~ In k colorFields ->
         model 0%nat = Returns (set (VObj props) k x) ->
         Color.performColorAnalysis model pi
         = (Ok (set (VObj props) k x), oneAttempt (Color.inputValue pi))).
Proof.
  split.
  - intros model ci props k x Hv Hk Hm.
    apply (flow_returns_after model _ _ _ _ _ 0
             (set (VObj props) k x) (set (VObj props) k x));
      [unfold maxRetries; lia | apply no_failures_retryableRun | exact Hm |].
    apply clothing_check_conforming. cbn [set].
    now rewrite clothing_issues_assign.
  - intros model pi props k x Hv Hdet Hk Hm.
    apply determined_output_is_returned; [exact Hm | |].
    + unfold conforms. cbn [set]. now rewrite color_issues_assign.
    + rewrite <- Hdet. apply ColorFacts.isUnanalyzable_season. cbn [set].
      apply get_assign_frame. intros E. apply Hk. rewrite E.
      unfold colorFields. cbn [In]. tauto.
Qed.

Lemma unknown_property_is_kept_witness :
  (Zod.issues Clothing.AnalyzeClothingItemOutputSchema [] tshirtAnalysis = []
   /\ ~ In "confidence" clothingFields
   /\ conforms lenteAnalysis
   /\ Color.isUnanalyzable lenteAnalysis = Ok false
   /\ ~ In "confidence" colorFields)
  /\ Clothing.analyzeClothingItem
       (fun _ => Returns (set tshirtAnalysis "confidence" (VNum 1))) someItemPhoto
     = (Ok (set tshirtAnalysis "confidence" (VNum 1)),
        oneAttempt (Clothing.inputValue someItemPhoto))
  /\ Color.performColorAnalysis
       (fun _ => Returns (set lenteAnalysis "confidence" (VNum 1))) somePhoto
     = (Ok (set lenteAnalysis "confidence" (VNum 1)),
        oneAttempt (Color.inputValue somePhoto)).
Proof.
  assert (H1 : ~ In "confidence" clothingFields).
  { unfold clothingFields. cbn [In].
    intros [H|[H|[H|[H|[H|[]]]]]]; discriminate H. }
  assert (H2 : ~ In "confidence" colorFields).
  { unfold colorFields. cbn [In].
    intros [H|[H|[H|[H|[H|[H|[]]]]]]]; discriminate H. }
  split; [repeat split; assumption|]. split.
  - unfold tshirtAnalysis.
    apply (proj1 unknown_property_is_kept); [reflexivity | exact H1 | reflexivity].
  - unfold lenteAnalysis.
    apply (proj2 unknown_property_is_kept);
      [reflexivity | reflexivity | exact H2 | reflexivity].
Defined.

(** X15.  An output that is truthy but not an object (a string, a number,
    an array) is treated differently by the two flows.  The clothing
    analysis rejects it with the validation error whose single entry is
    labelled "item"; the colour analysis does not reach the validation: its
    post-processing throws the [TypeError] of reading [length] of
    [undefined], which the flow throws on.  Neither is retried. *)
Theorem non_object_output
    (model : nat -> outcome) (raw : value)
    (ci : Clothing.AnalyzeClothingItemInput)
    (pi : Color.PerformColorAnalysisInput) :
  model 0%nat = Returns raw -> truthy raw = true -> notAnObject raw ->
  Clothing.analyzeClothingItem model ci
  = (Err (Error ("AI-output validatiefout: De data van de AI voldoet niet aan het verwachte formaat. Details: item: Expected object, received "
                 ++ Zod.parsedType raw)),
     oneAttempt (Clothing.inputValue ci))
  /\ Color.performColorAnalysis model pi
     = (Err (TypeError "Cannot read properties of undefined (reading 'length')"),
        oneAttempt (Color.inputValue pi)).
Proof.
  intros Hm Ht Hn. split.
  - assert (Hc : Clothing.check raw
                 = Err (ZodError [Zod.invalid_type [] "object" raw])).
    { unfold Clothing.check. rewrite Ht.
      destruct raw; try discriminate; try reflexivity; try contradiction. }
    pose proof (flow_invalid_after model (Clothing.inputValue ci) Clothing.check
                  Clothing.validationMessage Clothing.exhaustedMessage
                  Clothing.unexpectedMessage 0 raw _
                  ltac:(unfold maxRetries; lia) (no_failures_retryableRun model)
                  Hm Hc) as H.
    unfold Clothing.analyzeClothingItem, Clothing.analyzeClothingItemFlow.
    rewrite H. destruct raw; try discriminate; try reflexivity; try contradiction.
  - apply (flow_check_error_after model _ _ _ _ _ 0 raw
             (TypeError "Cannot read properties of undefined (reading 'length')"));
      [unfold maxRetries; lia | apply no_failures_retryableRun | exact Hm
      | | discriminate | reflexivity].
    unfold Color.check. rewrite Ht.
    destruct raw; try discriminate; try reflexivity; try contradiction.
Qed.

Lemma non_object_output_witness :
  (truthy (VStr "Het is een blauw T-shirt.") = true
   /\ notAnObject (VStr "Het is een blauw T-shirt."))
  /\ Clothing.analyzeClothingItem
       (fun _ => Returns (VStr "Het is een blauw T-shirt.")) someItemPhoto
     = (Err (Error ("AI-output validatiefout: De data van de AI voldoet niet aan het verwachte formaat. Details: item: Expected object, received "
                    ++ Zod.parsedType (VStr "Het is een blauw T-shirt."))),
        oneAttempt (Clothing.inputValue someItemPhoto))
  /\ Color.performColorAnalysis
       (fun _ => Returns (VStr "Het is een blauw T-shirt.")) somePhoto
     = (Err (TypeError "Cannot read properties of undefined (reading 'length')"),
        oneAttempt (Color.inputValue somePhoto)).
Proof.
  split; [split; [reflexivity | exact I]|].
  apply (non_object_output (fun _ => Returns (VStr "Het is een blauw T-shirt."))
           (VStr "Het is een blauw T-shirt.") someItemPhoto somePhoto);
    [reflexivity | reflexivity | exact I].
Defined.


(** ** The flows that call the model directly *)

(** X16.  When the image call answers without media, or with media that
    has no (non-empty) [url], the suggestion flow and the visualization
    flow fail with their "Failed to generate" error right after that call;
    the suggestion flow has then made its two invocations, the
    visualization flow its one. *)
Theorem image_without_url_fails :
  (forall (model : nat -> outcome) (si : Suggestion.GenerateOutfitSuggestionInput)
          (textOutput image : value),
      model 0%nat = Returns textOutput ->
      Suggestion.incomplete textOutput = false ->
      model 1%nat = Returns image -> truthy (mediaUrl image) = false ->
      Suggestion.generateOutfitSuggestion model si
      = (Err (Error "Failed to generate outfit image."), twoCalls si textOutput))
  /\ (forall (model : nat -> outcome)
             (vi : Visualization.GenerateOutfitVisualizationInput) (image : value),
         model 0%nat = Returns image -> truthy (mediaUrl image) = false ->
         Visualization.generateOutfitVisualization model vi
         = (Err (Error "Failed to generate outfit visualization image. The AI might have declined the request or an unknown error occurred."),
            mkWorld 1 [Generated (Visualization.promptSegments vi)])).
Proof.
  split.
  - intros model si t image H0 Hc H1 Hu.
    unfold Suggestion.generateOutfitSuggestion,
      Suggestion.generateOutfitSuggestionFlow, bind, invoke.
    cbn [calls start]. rewrite H0, Hc. cbn [calls]. rewrite H1, Hu. reflexivity.
  - intros model vi image H0 Hu.
    unfold Visualization.generateOutfitVisualization,
      Visualization.generateOutfitVisualizationFlow, bind, invoke.
    cbn [calls start]. rewrite H0, Hu. reflexivity.
Qed.

Lemma image_without_url_fails_witness :
  (Suggestion.incomplete blazerSuggestion = false
   /\ truthy (mediaUrl VNull) = false
   /\ truthy (mediaUrl (VObj [("contentType", VStr "image/png")])) = false)
  /\ Suggestion.generateOutfitSuggestion
       (textThenImage blazerSuggestion VNull) someOutfitRequest
     = (Err (Error "Failed to generate outfit image."),
        twoCalls someOutfitRequest blazerSuggestion)
  /\ Visualization.generateOutfitVisualization
       (fun _ => Returns (VObj [("contentType", VStr "image/png")]))
       threeItemRequest
     = (Err (Error "Failed to generate outfit visualization image. The AI might have declined the request or an unknown error occurred."),
        mkWorld 1 [Generated (Visualization.promptSegments threeItemRequest)]).
Proof.
  split; [repeat split|]. split.
  - apply (proj1 image_without_url_fails (textThenImage blazerSuggestion VNull)
             someOutfitRequest blazerSuggestion VNull); reflexivity.
  - apply (proj2 image_without_url_fails
             (fun _ => Returns (VObj [("contentType", VStr "image/png")]))
             threeItemRequest (VObj [("contentType", VStr "image/png")]));
      reflexivity.
Defined.

(** X17.  When the text output is complete and the image call answers
    with a [url], the suggestion flow returns, after exactly the two calls,
    the text fields as the text call gave them together with that [url];
    and the prompt of the image call contains the suggested outfit, the
    suggested shoes and, when socks are suggested, " with " and the
    socks. *)
Theorem suggestion_composes_two_calls
    (model : nat -> outcome) (si : Suggestion.GenerateOutfitSuggestionInput)
    (textOutput image : value) :
  model 0%nat = Returns textOutput ->
  Suggestion.incomplete textOutput = false ->
  model 1%nat = Returns image -> truthy (mediaUrl image) = true ->
  Suggestion.generateOutfitSuggestion model si
  = (Ok (VObj [("outfitSuggestion", get textOutput "outfitSuggestion");
               ("reasoning", get textOutput "reasoning");
               ("suggestedShoes", get textOutput "suggestedShoes");
               ("suggestedSocks", get textOutput "suggestedSocks");
               ("outfitImageUrl", get image "url")]),
     twoCalls si textOutput)
  /\ includes (Suggestion.imagePromptText textOutput)
       (to_string (get textOutput "outfitSuggestion")) = true
  /\ includes (Suggestion.imagePromptText textOutput)
       (to_string (get textOutput "suggestedShoes")) = true
  /\ (truthy (get textOutput "suggestedSocks") = true ->
      includes (Suggestion.imagePromptText textOutput)
        (" with " ++ to_string (get textOutput "suggestedSocks")) = true).
Proof.
  intros H0 Hc H1 Hu. split; [|split; [|split]].
  - unfold Suggestion.generateOutfitSuggestion,
      Suggestion.generateOutfitSuggestionFlow, bind, invoke.
    cbn [calls start]. rewrite H0, Hc. cbn [calls]. rewrite H1, Hu. reflexivity.
  - unfold Suggestion.imagePromptText.
    apply includes_app_r, includes_app_l, includes_refl.
  - unfold Suggestion.imagePromptText.
    do 3 apply includes_app_r. apply includes_app_l, includes_refl.
  - intros Hs. unfold Suggestion.imagePromptText. rewrite Hs.
    do 4 apply includes_app_r. apply includes_app_l, includes_refl.
Qed.

Lemma suggestion_composes_two_calls_witness :
  (Suggestion.incomplete blazerSuggestion = false
   /\ truthy (mediaUrl generatedImage) = true)
  /\ Suggestion.generateOutfitSuggestion
       (textThenImage blazerSuggestion generatedImage) someOutfitRequest
     = (Ok (VObj [("outfitSuggestion", get blazerSuggestion "outfitSuggestion");
                  ("reasoning", get blazerSuggestion "reasoning");
                  ("suggestedShoes", get blazerSuggestion "suggestedShoes");
                  ("suggestedSocks", get blazerSuggestion "suggestedSocks");
                  ("outfitImageUrl", get generatedImage "url")]),
        twoCalls someOutfitRequest blazerSuggestion)
  /\ includes (Suggestion.imagePromptText blazerSuggestion)
       (to_string (get blazerSuggestion "outfitSuggestion")) = true
  /\ includes (Suggestion.imagePromptText blazerSuggestion)
       (to_string (get blazerSuggestion "suggestedShoes")) = true
  /\ (truthy (get blazerSuggestion "suggestedSocks") = true ->
      includes (Suggestion.imagePromptText blazerSuggestion)
        (" with " ++ to_string (get blazerSuggestion "suggestedSocks")) = true).
Proof.
  split; [split; reflexivity|].
  apply (suggestion_composes_two_calls
           (textThenImage blazerSuggestion generatedImage) someOutfitRequest
           blazerSuggestion generatedImage); reflexivity.
Defined.

(** X18.  Whatever the model answers, the three flows that call the model
    directly never suspend; the inspiration and the visualization flow make
    exactly one invocation, the suggestion flow one or two, and the log of
    the suggestion flow always begins with the text call. *)
Theorem direct_flows_never_wait
    (model : nat -> outcome)
    (si : Suggestion.GenerateOutfitSuggestionInput)
    (ii : Inspiration.GenerateOutfitInspirationInput)
    (vi : Visualization.GenerateOutfitVisualizationInput) :
  (delays (log (snd (Suggestion.generateOutfitSuggestion model si))) = []
   /\ (1 <= calls (snd (Suggestion.generateOutfitSuggestion model si)) <= 2)%nat
   /\ hd_error (log (snd (Suggestion.generateOutfitSuggestion model si)))
      = Some (Prompted (Suggestion.inputValue si)))
  /\ snd (Inspiration.generateOutfitInspiration model ii)
     = mkWorld 1 [Prompted (Inspiration.inputValue ii)]
  /\ snd (Visualization.generateOutfitVisualization model vi)
     = mkWorld 1 [Generated (Visualization.promptSegments vi)].
Proof.
  split; [|split].
  - unfold Suggestion.generateOutfitSuggestion,
      Suggestion.generateOutfitSuggestionFlow, bind, invoke.
    cbn [calls start log].
    destruct (model 0%nat) as [t|msg]; [|cbn; split; [reflexivity | split; [lia | reflexivity]]].
    destruct (Suggestion.incomplete t);
      [cbn; split; [reflexivity | split; [lia | reflexivity]]|].
    cbn [calls log].
    destruct (model 1%nat) as [m|msg];
      [destruct (negb (truthy (mediaUrl m)))|];
      cbn; (split; [reflexivity | split; [lia | reflexivity]]).
  - unfold Inspiration.generateOutfitInspiration,
      Inspiration.generateOutfitInspirationFlow, bind, invoke.
    cbn [calls start log].
    destruct (model 0%nat) as [o|msg]; [|reflexivity].
    destruct (negb (truthy o) || negb (truthy (get o "inspiredOutfits")));
      reflexivity.
  - unfold Visualization.generateOutfitVisualization,
      Visualization.generateOutfitVisualizationFlow, bind, invoke.
    cbn [calls start log].
    destruct (model 0%nat) as [m|msg]; [|reflexivity].
    destruct (negb (truthy (mediaUrl m))); reflexivity.
Qed.

(** X19.  The inspiration flow returns a result exactly when the model's
    answer is an output with a truthy [inspiredOutfits], and the result is
    then that output itself; an empty list of outfits is such an output,
    and is returned. *)
Theorem inspiration_returns_the_output
    (model : nat -> outcome) (ii : Inspiration.GenerateOutfitInspirationInput)
    (res : value) :
  (fst (Inspiration.generateOutfitInspiration model ii) = Ok res
   <-> model 0%nat = Returns res
       /\ truthy (get res "inspiredOutfits") = true)
  /\ (model 0%nat = Returns res -> get res "inspiredOutfits" = VArr [] ->
      fst (Inspiration.generateOutfitInspiration model ii) = Ok res).
Proof.
  assert (Hiff : fst (Inspiration.generateOutfitInspiration model ii) = Ok res
                 <-> model 0%nat = Returns res
                     /\ truthy (get res "inspiredOutfits") = true).
  { unfold Inspiration.generateOutfitInspiration,
      Inspiration.generateOutfitInspirationFlow, bind, invoke.
    cbn [calls start]. split.
    - destruct (model 0%nat) as [o|msg]; [|discriminate].
      destruct (truthy o) eqn:To; cbn [negb orb]; [|discriminate].
      destruct (truthy (get o "inspiredOutfits")) eqn:Ti; cbn [negb];
        [|discriminate].
      cbn. intros H. apply Ok_inj in H. subst o. auto.
    - intros [-> Hi].
      destruct (truthy_get_object res "inspiredOutfits" Hi) as [props ->].
      cbn [truthy negb orb]. rewrite Hi. reflexivity. }
  split; [exact Hiff|].
  intros Hm He. apply Hiff. split; [exact Hm|]. now rewrite He.
Qed.

Lemma inspiration_returns_the_output_witness :
  get noOutfits "inspiredOutfits" = VArr []
  /\ fst (Inspiration.generateOutfitInspiration (fun _ => Returns noOutfits)
            someWardrobe) = Ok noOutfits.
Proof.
  split; [reflexivity|].
  apply (proj2 (inspiration_returns_the_output (fun _ => Returns noOutfits)
                  someWardrobe noOutfits)); reflexivity.
Defined.

Lemma mediaOf_app (a b : list part) : mediaOf (a ++ b) = mediaOf a ++ mediaOf b.
Proof.
  induction a as [|x a IH]; [reflexivity|].
  destruct x; cbn [app mediaOf]; now rewrite IH.
Qed.

Lemma mediaOf_items (its : list Visualization.ClothingItemVisual) :
  mediaOf (flat_map Visualization.itemSegments its) = acceptedReferences its.
Proof.
  induction its as [|item its IH]; [reflexivity|].
  unfold acceptedReferences in *. cbn [flat_map].
  rewrite mediaOf_app, IH. f_equal.
  unfold Visualization.itemSegments.
  destruct (Visualization.imageUrl item) as [u|]; [|reflexivity].
  destruct (nonempty u); [|reflexivity].
  destruct (startsWith u "data:image"); reflexivity.
Qed.

(** X20.  The media parts of the prompt of the visualization flow are,
    in the order of the items, exactly the image references that are
    present, non-empty and begin with "data:image": none of these is left
    out, and nothing else is sent as media. *)
Theorem visualization_media_are_the_accepted_references
    (input : Visualization.GenerateOutfitVisualizationInput) :
  mediaOf (Visualization.promptSegments input)
  = acceptedReferences (itemsOf input).
Proof.
  unfold Visualization.promptSegments, itemsOf. rewrite mediaOf_app.
  cbn [mediaOf app].
  destruct (Visualization.items input) as [[|item its]|]; try reflexivity.
  cbn [mediaOf]. apply mediaOf_items.
Qed.

Lemma itemSegments_mentions (item : Visualization.ClothingItemVisual) :
  exists t, In (text t) (Visualization.itemSegments item)
            /\ includes t (Visualization.itemDescription item) = true.
Proof.
  unfold Visualization.itemSegments.
  destruct (Visualization.imageUrl item) as [u|];
    [destruct (nonempty u); [destruct (startsWith u "data:image")|]|].
  - eexists. split; [right; left; reflexivity|].
    apply includes_app_r, includes_app_l, includes_refl.
  - eexists. split; [left; reflexivity|].
    apply includes_app_r, includes_app_l, includes_refl.
  - eexists. split; [left; reflexivity|].
    apply includes_app_r, includes_refl.
  - eexists. split; [left; reflexivity|].
    apply includes_app_r, includes_refl.
Qed.

(** X21.  The prompt of the visualization flow always opens with the text
    that contains the description of the outfit, and every item of the
    request is mentioned: some text part contains its description, whether
    or not its image was accepted.  Without items (the list absent or
    empty) the prompt is the two opening texts and nothing else. *)
Theorem visualization_prompt_mentions_everything
    (input : Visualization.GenerateOutfitVisualizationInput) :
  (exists t rest,
      Visualization.promptSegments input = text t :: rest
      /\ includes t (Visualization.description input) = true)
  /\ (forall item, In item (itemsOf input) ->
        exists t, In (text t) (Visualization.promptSegments input)
                  /\ includes t (Visualization.itemDescription item) = true)
  /\ (itemsOf input = [] ->
      length (Visualization.promptSegments input) = 2%nat
      /\ mediaOf (Visualization.promptSegments input) = []).
Proof.
  split; [|split].
  - unfold Visualization.promptSegments. cbn [app].
    eexists. eexists. split; [reflexivity|].
    apply includes_app_r, includes_app_l, includes_refl.
  - intros item Hin. destruct (itemSegments_mentions item) as (t & Ht & Hinc).
    exists t. split; [|exact Hinc].
    unfold Visualization.promptSegments, itemsOf in *.
    destruct (Visualization.items input) as [[|it its]|]; try contradiction.
    apply in_or_app. right. right.
    apply in_flat_map. exists item. split; assumption.
  - unfold Visualization.promptSegments, itemsOf.
    destruct (Visualization.items input) as [[|it its]|];
      try discriminate; intros _; split; reflexivity.
Qed.

Lemma visualization_prompt_mentions_everything_witness :
  In {| Visualization.itemDescription := "Wit T-shirt";
        Visualization.imageUrl := Some "https://example.com/shirt.png" |}
     (itemsOf threeItemRequest)
  /\ exists t, In (text t) (Visualization.promptSegments threeItemRequest)
               /\ includes t "Wit T-shirt" = true.
Proof.
  assert (Hin : In {| Visualization.itemDescription := "Wit T-shirt";
                      Visualization.imageUrl := Some "https://example.com/shirt.png" |}
                   (itemsOf threeItemRequest))
    by (right; left; reflexivity).
  split; [exact Hin|].
  apply (proj1 (proj2 (visualization_prompt_mentions_everything threeItemRequest))
           _ Hin).
Defined.

(** ** When the model is invoked again *)

Section RetriesOnlyAfterModelFailures.

Variable model : nat -> outcome.
Variable input : value.
Variable check : value -> result value.
Variable validationMessage : list ZodIssue -> string.
Variable exhaustedMessage : string -> string.
Variable unexpectedMessage : string.

(** The checks throw a [ZodError] or an exception whose message is not
    retryable. *)
Hypothesis check_fatal :
  forall raw e, check raw = Err e ->
    (exists errors, e = ZodError errors)
    \/ isRetryableError (classified (messageOf e)) = false.

Let run := loop model input check validationMessage exhaustedMessage.

Lemma loop_retries_only (remaining attempt : nat) (delay : Z) (w : world) (j : nat) :
  (calls w + j + 1 < calls (snd (run remaining attempt delay w)))%nat ->
  exists msg, model (calls w + j)%nat = Fails msg
              /\ isRetryableError (classified msg) = true.
Proof.
  revert attempt delay w j.
  induction remaining as [|r IH]; intros attempt delay w j.
  - cbn. lia.
  - unfold run. cbn [loop].
    unfold bind, try_catch, attemptBody, bind, invoke, lift, ret, handler.
    destruct (model (calls w)) as [raw|msg] eqn:Hm.
    + destruct (check raw) as [out|e] eqn:Hc; [cbn; lia|].
      destruct (check_fatal raw e Hc) as [[errors ->]|Hn]; [cbn; lia|].
      destruct e as [errors|m|m]; [cbn; lia | |];
        cbn [messageOf] in *; fold (classified m); rewrite Hn; cbn; lia.
    + cbn [messageOf]. fold (classified msg).
      destruct (isRetryableError (classified msg)) eqn:Hr; [|cbn; lia].
      destruct (attempt <? maxRetries - 1)%nat; [|cbn; lia].
      unfold bind, sleep, ret, throw. cbn [calls log].
      intros Hlt. destruct j as [|j].
      * exists msg. rewrite Nat.add_0_r. auto.
      * specialize (IH (S attempt) (delay * 2)%Z
                      (mkWorld (S (calls w))
                         ((log w ++ [Prompted input]) ++ [Slept delay])) j).
        cbn [calls] in IH. replace (calls w + S j)%nat with (S (calls w) + j)%nat by lia.
        apply IH. fold run in Hlt. lia.
Qed.

Lemma flow_retries_only :
  retryableRun model start
    (calls (snd (retryingFlow model input check validationMessage
                   exhaustedMessage unexpectedMessage start)) - 1).
Proof.
  intros j Hj. rewrite retryingFlow_world in Hj.
  apply (loop_retries_only maxRetries 0 2000 start j). fold run in Hj.
  cbn [calls start Nat.add] in *. lia.
Qed.

End RetriesOnlyAfterModelFailures.

Lemma clothing_check_fatal (raw : value) (e : exn) :
  Clothing.check raw = Err e ->
  (exists errors, e = ZodError errors)
  \/ isRetryableError (classified (messageOf e)) = false.
Proof.
  unfold Clothing.check. destruct (truthy raw); cbn [negb].
  - unfold Zod.parse. destruct (Zod.issues _ _ raw); cbn [bindR]; [discriminate|].
    intros [= <-]. left. eexists; reflexivity.
  - intros [= <-]. right. reflexivity.
Qed.

Lemma color_check_fatal (raw : value) (e : exn) :
  Color.check raw = Err e ->
  (exists errors, e = ZodError errors)
  \/ isRetryableError (classified (messageOf e)) = false.
Proof.
  unfold Color.check. destruct (truthy raw); cbn [negb].
  - destruct (Color.postProcess raw) as [o|e0] eqn:Hp; cbn [bindR].
    + unfold Zod.parse. destruct (Zod.issues _ _ o); cbn [bindR]; [discriminate|].
      intros [= <-]. left. eexists; reflexivity.
    + intros [= <-]. right.
      apply postProcessErrors_fatal, postProcess_error with (raw := raw), Hp.
  - intros [= <-]. right. reflexivity.
Qed.

(** X22.  Whatever the model answers, an analysis flow invokes the model
    again only after a failure of the model whose message is retryable:
    every invocation of a run but the last one failed with such a message.
    An output that was returned, be it empty, rejected or the cause of an
    exception, is never followed by another invocation. *)
Theorem model_is_invoked_again_only_after_retryable_failure
    (model : nat -> outcome)
    (ci : Clothing.AnalyzeClothingItemInput)
    (pi : Color.PerformColorAnalysisInput) :
  retryableRun model start
    (calls (snd (Clothing.analyzeClothingItem model ci)) - 1)
  /\ retryableRun model start
       (calls (snd (Color.performColorAnalysis model pi)) - 1).
Proof.
  split.
  - apply flow_retries_only, clothing_check_fatal.
  - apply flow_retries_only, color_check_fatal.
Qed.

Lemma model_is_invoked_again_only_after_retryable_failure_witness :
  calls (snd (Clothing.analyzeClothingItem (rateLimitedTwice tshirtAnalysis)
                someItemPhoto)) = 3%nat
  /\ exists msg,
       rateLimitedTwice tshirtAnalysis 1%nat = Fails msg
       /\ isRetryableError (classified msg) = true.
Proof.
  split; [reflexivity|].
  apply (proj1 (model_is_invoked_again_only_after_retryable_failure
                  (rateLimitedTwice tshirtAnalysis) someItemPhoto somePhoto) 1%nat).
  vm_compute. lia.
Defined.

Lemma isRetryableError_embedded (pre s post : string) :
  isRetryableError s = true -> isRetryableError (pre ++ s ++ post) = true.
Proof.
  unfold isRetryableError. intros H.
  repeat (apply orb_true_iff in H; destruct H as [H|H]);
    apply (includes_app_l _ post), (includes_app_r pre) in H; rewrite H;
    repeat (rewrite ?orb_true_l, ?orb_true_r); reflexivity.
Qed.

(** X23.  The classification of a failure looks at the lower-cased
    message only and at any place in it: two messages that differ in
    letter case alone are classified alike, and a message that is
    retryable stays retryable inside any longer message. *)
Theorem classification_ignores_case_and_context (a b pre post : string) :
  (toLowerCase a = toLowerCase b ->
   isRetryableError (classified a) = isRetryableError (classified b))
  /\ (isRetryableError (classified a) = true ->
      isRetryableError (classified (pre ++ a ++ post)) = true).
Proof.
  split.
  - intros H. destruct a as [|ca ra], b as [|cb rb]; try discriminate;
      [reflexivity|].
    rewrite !classified_nonempty by reflexivity. now rewrite H.
  - intros H. destruct a as [|ca ra]; [discriminate|].
    rewrite classified_nonempty in H by reflexivity.
    rewrite classified_nonempty.
    + rewrite !toLowerCase_app. now apply isRetryableError_embedded.
    + destruct pre; reflexivity.
Qed.

Lemma classification_ignores_case_and_context_witness :
  (toLowerCase "RATE LIMIT exceeded" = toLowerCase "rate limit Exceeded"
   /\ isRetryableError (classified "RATE LIMIT exceeded") = true)
  /\ isRetryableError (classified "RATE LIMIT exceeded")
     = isRetryableError (classified "rate limit Exceeded")
  /\ isRetryableError
       (classified ("[GoogleGenerativeAI Error]: " ++ "RATE LIMIT exceeded"
                    ++ " (429)")) = true.
Proof.
  split; [split; reflexivity|].
  destruct (classification_ignores_case_and_context "RATE LIMIT exceeded"
              "rate limit Exceeded" "[GoogleGenerativeAI Error]: " " (429)")
    as [H1 H2].
  split; [apply H1 | apply H2]; reflexivity.
Defined.
